(** * Staffly: accounts, decorators, middleware and dashboard views

    A shallow embedding of the Django application under [src/]:
    the [User] model ([accounts/models.py]), the role decorators
    ([accounts/decorators.py]), the two middlewares
    ([accounts/middleware.py]), the forms ([accounts/forms.py]), the
    account views ([accounts/views.py]) and the dashboard router
    ([dashboard/views.py]).

    The database table of users is a list of records; a request is a
    record carrying [request.path], [request.method], [request.user],
    [request.GET], [request.POST], [request.FILES] and the current time.
    Views are functions in a small state monad over a [World] holding the
    table, the message storage ([django.contrib.messages]) and the
    session.  Django's own helpers the views call ([login_required],
    [require_POST], [get_object_or_404], [authenticate], [login],
    [Paginator], [QuerySet.filter/order_by]) are written out from their
    documented behaviour, as far as these views use them. *)

From Stdlib Require Import String Ascii ZArith List Bool Lia Permutation.
Import ListNotations.
Open Scope string_scope.
Open Scope Z_scope.

(** ** Python string helpers *)

Module Py.

(** [c.lower()] on ASCII characters. *)
Definition lower_char (c : ascii) : ascii :=
  let n := nat_of_ascii c in
  if ((65 <=? n) && (n <=? 90))%nat then ascii_of_nat (n + 32) else c.

Fixpoint lower (s : string) : string :=
  match s with
  | EmptyString => EmptyString
  | String c r => String (lower_char c) (lower r)
  end.

(** [s.startswith(p)] *)
Fixpoint startswith (s p : string) : bool :=
  match p, s with
  | EmptyString, _ => true
  | String c p', String d s' => Ascii.eqb c d && startswith s' p'
  | String _ _, EmptyString => false
  end.

(** [p in s] (substring test). *)
Fixpoint contains (s p : string) : bool :=
  startswith s p ||
  match s with
  | EmptyString => false
  | String _ s' => contains s' p
  end.

Definition is_space (c : ascii) : bool :=
  let n := nat_of_ascii c in
  (n =? 32)%nat || ((9 <=? n) && (n <=? 13))%nat.

Fixpoint lstrip (s : string) : string :=
  match s with
  | String c r => if is_space c then lstrip r else s
  | EmptyString => EmptyString
  end.

Fixpoint rev_str (s : string) (acc : string) : string :=
  match s with
  | EmptyString => acc
  | String c r => rev_str r (String c acc)
  end.

(** [s.strip()] on ASCII whitespace. *)
Definition strip (s : string) : string :=
  rev_str (lstrip (rev_str (lstrip s) EmptyString)) EmptyString.

(** [s.split(c)] *)
Fixpoint split (c : ascii) (s : string) : list string :=
  match s with
  | EmptyString => [EmptyString]
  | String d r =>
      let parts := split c r in
      if Ascii.eqb c d then EmptyString :: parts
      else match parts with
           | p :: ps => String d p :: ps
           | [] => [String d EmptyString]
           end
  end.

Definition is_digit (c : ascii) : bool :=
  let n := nat_of_ascii c in ((48 <=? n) && (n <=? 57))%nat.

Fixpoint digits_value (s : string) (acc : Z) : option Z :=
  match s with
  | EmptyString => Some acc
  | String c r =>
      if is_digit c
      then digits_value r (acc * 10 + Z.of_nat (nat_of_ascii c - 48))
      else None
  end.

(** [int(s)] for a string of decimal digits with an optional sign
    (surrounding blanks and digit separators are not modelled);
    [None] is the [ValueError]. *)
Definition int_of_string (s : string) : option Z :=
  match s with
  | String "-" (String _ _ as r) => option_map Z.opp (digits_value r 0)
  | String "+" (String _ _ as r) => digits_value r 0
  | String _ _ => digits_value s 0
  | EmptyString => None
  end.

End Py.

(** ** The model: [accounts/models.py] *)

(** [User.Role] (a [TextChoices]): the column only holds these values. *)
Inductive Role := ADMIN | STAFF | USER.

Definition role_eqb (a b : Role) : bool :=
  match a, b with
  | ADMIN, ADMIN | STAFF, STAFF | USER, USER => true
  | _, _ => false
  end.

(** The stored string of each choice. *)
Definition role_str (r : Role) : string :=
  match r with ADMIN => "ADMIN" | STAFF => "STAFF" | USER => "USER" end.

(** Parsing a submitted choice: a [ChoiceField] only accepts the choices. *)
Definition role_of_string (s : string) : option Role :=
  if String.eqb s "ADMIN" then Some ADMIN
  else if String.eqb s "STAFF" then Some STAFF
  else if String.eqb s "USER" then Some USER
  else None.

(** A row of the users table.  Times are microseconds since the epoch;
    the password is the stored credential, compared by [check_password]. *)
Record User := mkUser {
  pk : Z;
  email : string;
  password : string;
  first_name : string;
  last_name : string;
  role : Role;
  is_active : bool;
  is_staff : bool;
  is_superuser : bool;
  phone : string;
  department : string;
  job_title : string;
  profile_picture : option string;
  bio : string;
  date_joined : Z;
  last_login : option Z;
  updated_at : Z
}.

(** [User.get_short_name] *)
Definition get_short_name (u : User) : string :=
  if String.eqb (first_name u) "" then
    match Py.split "@" (email u) with p :: _ => p | [] => "" end
  else first_name u.

(** [user.check_password(raw)] *)
Definition check_password (u : User) (raw : string) : bool :=
  String.eqb (password u) raw.

(** ** Requests, responses and the world *)

(** A [QueryDict]: [qd.get(k)] returns the last value given for [k]. *)
Definition QueryDict := list (string * string).

Definition qd_get (q : QueryDict) (k : string) : option string :=
  fold_left (fun acc '(k', v) => if String.eqb k k' then Some v else acc) q None.

Definition qd_get_default (q : QueryDict) (k d : string) : string :=
  match qd_get q k with Some v => v | None => d end.

Record Request := mkRequest {
  path : string;
  method : string;
  (** [request.user]: [None] is [AnonymousUser]. *)
  req_user : option User;
  GET : QueryDict;
  POST : QueryDict;
  FILES : QueryDict;
  (** [timezone.now()] while the request is handled. *)
  now : Z
}.

Definition is_authenticated (r : Request) : bool :=
  match req_user r with Some _ => true | None => false end.

Inductive Level := Info | Success | Error.

(** A [Page] of a [Paginator]. *)
Record Page := mkPage {
  pg_object_list : list User;   (** [page.paginator.object_list] *)
  pg_number : Z;                (** [page.number] *)
  pg_num_pages : Z;             (** [page.paginator.num_pages] *)
  pg_items : list User          (** [page.object_list] *)
}.

Inductive Response :=
  | Render (template : string)
  | RenderUserList (page_obj : Page) (total_users active_users inactive_users : nat)
  | Redirect (to : string)
  (** [redirect_to_login(...)] from [login_required], carrying the requested
      path as [next] (the query string is not modelled) *)
  | RedirectToLogin (next : string)
  | HttpResponseNotAllowed
  | Http404
  (** an uncaught exception: a 500 response *)
  | ServerError (exc : string).

Record World := mkWorld {
  db : list User;
  msgs : list (Level * string);
  (** the primary key bound to the session by [login], if any *)
  session : option Z;
  (** [request.session.set_expiry(0)] was called *)
  session_expires_at_browser_close : bool
}.

Definition set_db (l : list User) (w : World) : World :=
  mkWorld l (msgs w) (session w) (session_expires_at_browser_close w).

(** [messages.add_message(request, level, text)] *)
Definition add_msg (lv : Level) (m : string) (w : World) : World :=
  mkWorld (db w) (msgs w ++ [(lv, m)]) (session w) (session_expires_at_browser_close w).

(** ** A state monad for views *)

Definition M (A : Type) := World -> A * World.

Definition ret {A} (a : A) : M A := fun w => (a, w).
Definition bind {A B} (m : M A) (k : A -> M B) : M B :=
  fun w => let (a, w') := m w in k a w'.

Notation "x <- m ;; k" := (bind m (fun x => k))
  (at level 61, m at next level, right associativity).
Notation "m ;;; k" := (bind m (fun _ => k))
  (at level 61, right associativity).

Definition modify (f : World -> World) : M unit := fun w => (tt, f w).
Definition gets {A} (f : World -> A) : M A := fun w => (f w, w).

Definition messages_error (m : string) : M unit := modify (add_msg Error m).
Definition messages_success (m : string) : M unit := modify (add_msg Success m).
Definition messages_info (m : string) : M unit := modify (add_msg Info m).

Definition View := Request -> M Response.

(** ** Table operations the views use *)

Definition find_pk (k : Z) (l : list User) : option User :=
  find (fun u => Z.eqb (pk u) k) l.

(** [obj.save()] of an existing row: the row with the same primary key is
    replaced. *)
Definition save_row (u : User) (l : list User) : list User :=
  map (fun v => if Z.eqb (pk v) (pk u) then u else v) l.

(** [obj.delete()] *)
Definition delete_row (k : Z) (l : list User) : list User :=
  filter (fun v => negb (Z.eqb (pk v) k)) l.

(** [get_object_or_404(User, pk=pk)] *)
Definition get_object_or_404 (k : Z) (k404 : M Response) (kont : User -> M Response)
  : M Response :=
  fun w => match find_pk k (db w) with
           | Some u => kont u w
           | None => (Http404, w)
           end.

(** ** Django's decorators used by the views *)

(** [django.contrib.auth.decorators.login_required] *)
Definition login_required (view : View) : View :=
  fun req => if is_authenticated req then view req
             else ret (RedirectToLogin (path req)).

(** [django.views.decorators.http.require_POST] *)
Definition require_POST (view : View) : View :=
  fun req => if String.eqb (method req) "POST" then view req
             else ret HttpResponseNotAllowed.

(** ** [accounts/decorators.py] *)

Definition user_role (req : Request) : option Role :=
  option_map role (req_user req).

(** [role_required(allowed_roles)] *)
Definition role_required (allowed_roles : list Role) (view_func : View) : View :=
  login_required (fun req =>
    match user_role req with
    | Some r => if existsb (role_eqb r) allowed_roles then view_func req
                else messages_error "You do not have permission to access this page." ;;;
                     ret (Redirect "dashboard:router")
    | None => view_func req  (* unreachable under login_required *)
    end).

(** [admin_required] *)
Definition admin_required (view_func : View) : View :=
  login_required (fun req =>
    match user_role req with
    | Some ADMIN => view_func req
    | _ => messages_error "Administrator access required." ;;;
           ret (Redirect "dashboard:router")
    end).

(** [staff_required] *)
Definition staff_required (view_func : View) : View :=
  login_required (fun req =>
    match user_role req with
    | Some ADMIN | Some STAFF => view_func req
    | _ => messages_error "Staff access required." ;;;
           ret (Redirect "dashboard:router")
    end).

(** [anonymous_required] *)
Definition anonymous_required (view_func : View) : View :=
  fun req => if is_authenticated req then ret (Redirect "dashboard:router")
             else view_func req.

(** ** QuerySets and the paginator used by [user_list] *)

Module QS.

(** [field__icontains=term]: case-insensitive substring test. *)
Definition icontains (field term : string) : bool :=
  Py.contains (Py.lower field) (Py.lower term).

Definition codes (s : string) : list Z :=
  map (fun c => Z.of_nat (nat_of_ascii c)) (list_ascii_of_string s).

(** The value of a column as a sort key, compared lexicographically
    (text by code points; [NULL] sorts first). *)
Definition column_key (f : string) : option (User -> list Z) :=
  if String.eqb f "id" || String.eqb f "pk" then Some (fun u => [pk u])
  else if String.eqb f "email" then Some (fun u => codes (email u))
  else if String.eqb f "password" then Some (fun u => codes (password u))
  else if String.eqb f "first_name" then Some (fun u => codes (first_name u))
  else if String.eqb f "last_name" then Some (fun u => codes (last_name u))
  else if String.eqb f "role" then Some (fun u => codes (role_str (role u)))
  else if String.eqb f "is_active" then Some (fun u => [Z.b2z (is_active u)])
  else if String.eqb f "is_staff" then Some (fun u => [Z.b2z (is_staff u)])
  else if String.eqb f "is_superuser" then Some (fun u => [Z.b2z (is_superuser u)])
  else if String.eqb f "phone" then Some (fun u => codes (phone u))
  else if String.eqb f "department" then Some (fun u => codes (department u))
  else if String.eqb f "job_title" then Some (fun u => codes (job_title u))
  else if String.eqb f "profile_picture" then
    Some (fun u => match profile_picture u with Some p => codes p | None => [] end)
  else if String.eqb f "bio" then Some (fun u => codes (bio u))
  else if String.eqb f "date_joined" then Some (fun u => [date_joined u])
  else if String.eqb f "last_login" then
    Some (fun u => match last_login u with Some t => [t] | None => [] end)
  else if String.eqb f "updated_at" then Some (fun u => [updated_at u])
  else None.

Fixpoint lex_leb (a b : list Z) : bool :=
  match a, b with
  | [], _ => true
  | _ :: _, [] => false
  | x :: a', y :: b' => (x <? y) || ((x =? y) && lex_leb a' b')
  end.

Section Sort.
Variable le : User -> User -> bool.

Fixpoint insert (x : User) (l : list User) : list User :=
  match l with
  | [] => [x]
  | y :: l' => if le x y then x :: l else y :: insert x l'
  end.

Fixpoint sort (l : list User) : list User :=
  match l with
  | [] => []
  | x :: l' => insert x (sort l')
  end.
End Sort.

Inductive QResult (A : Type) := Ok (a : A) | FieldError (msg : string).
Arguments Ok {A}.
Arguments FieldError {A}.

(** [qs.order_by(ordering)] for one ordering string: ['?'] (random order;
    the model keeps the current order), ['-field'] (descending) or
    ['field'] (ascending) for a column of [User]; any other name raises
    [FieldError] ("Cannot resolve keyword ... into field").  Orderings
    through relations ([groups], [user_permissions], [logentry], [a__b])
    are not modelled and fall into the [FieldError] branch. *)
Definition order_by (ordering : string) (l : list User) : QResult (list User) :=
  if String.eqb ordering "?" then Ok l
  else
    let '(desc, name) :=
      match ordering with
      | String "-" n => (true, n)
      | _ => (false, ordering)
      end in
    match column_key name with
    | Some key =>
        Ok (sort (fun x y => if desc then lex_leb (key y) (key x)
                             else lex_leb (key x) (key y)) l)
    | None => FieldError ("Cannot resolve keyword '" ++ name ++ "' into field.")
    end.

(** [Paginator(object_list, per_page)] with [orphans=0] and
    [allow_empty_first_page=True]. *)
Definition num_pages (per_page : Z) (l : list User) : Z :=
  let count := Z.of_nat (length l) in
  if count =? 0 then 1 else (count + per_page - 1) / per_page.

(** [paginator.get_page(number)]: a non-integer (or missing) number gives
    page 1, an out-of-range one the last page. *)
Definition get_page (per_page : Z) (l : list User) (number : option string) : Page :=
  let np := num_pages per_page l in
  let n := match option_map Py.int_of_string number with
           | Some (Some k) => if (k <? 1) || (np <? k) then np else k
           | _ => 1
           end in
  let bottom := (n - 1) * per_page in
  let top := Z.min (bottom + per_page) (Z.of_nat (length l)) in
  mkPage l n np (firstn (Z.to_nat (top - bottom)) (skipn (Z.to_nat bottom) l)).

End QS.

(** ** [accounts/views.py]: [user_list] *)

Definition search_matches (search : string) (u : User) : bool :=
  QS.icontains (email u) search || QS.icontains (first_name u) search ||
  QS.icontains (last_name u) search || QS.icontains (department u) search.

(** The queryset built by [user_list] from [request.GET], before
    pagination. *)
Definition user_list_queryset (q : QueryDict) (users : list User)
  : QS.QResult (list User) :=
  let search := qd_get_default q "search" "" in
  let users := if String.eqb search "" then users
               else filter (search_matches search) users in
  let role_ := qd_get_default q "role" "" in
  let users := if String.eqb role_ "" then users
               else filter (fun u => String.eqb (role_str (role u)) role_) users in
  let status := qd_get_default q "status" "" in
  let users := if String.eqb status "active" then filter is_active users
               else if String.eqb status "inactive" then filter (fun u => negb (is_active u)) users
               else users in
  let ordering := qd_get_default q "ordering" "-date_joined" in
  QS.order_by ordering users.

Definition user_list_impl : View :=
  fun req w =>
    match user_list_queryset (GET req) (db w) with
    | QS.FieldError m => (ServerError ("FieldError: " ++ m), w)
    | QS.Ok users =>
        let page_obj := QS.get_page 10 users (qd_get (GET req) "page") in
        (RenderUserList page_obj
           (length (db w))
           (length (filter is_active (db w)))
           (length (filter (fun u => negb (is_active u)) (db w))), w)
    end.

Definition user_list : View := admin_required user_list_impl.

(** The field an ordering string names, as [QS.order_by] reads it: the
    string without its leading ['-']. *)
Definition ordering_name (ordering : string) : string :=
  snd (match ordering with
       | String "-" n => (true, n)
       | _ => (false, ordering)
       end).

(** ** Form fields ([accounts/forms.py] and the model fields behind them) *)

Module Forms.

(** A [forms.CharField] (or a model [CharField]/[TextField] turned into
    one): [strip=True], [required], [max_length]. *)
Definition char_field (required : bool) (max_length : option nat) (v : option string)
  : option string :=
  let s := Py.strip (match v with Some s => s | None => "" end) in
  if required && String.eqb s "" then None
  else match max_length with
       | Some m => if Nat.ltb m (String.length s) then None else Some s
       | None => Some s
       end.

(** [EmailValidator], simplified: one ['@'], a non-empty local part
    without blanks, and a domain with a dot (or ['localhost']). *)
Definition valid_email (s : string) : bool :=
  match Py.split "@" s with
  | [local; domain] =>
      negb (String.eqb local "") && negb (Py.contains s " ") &&
      (Py.contains domain "." || String.eqb domain "localhost")
  | _ => false
  end.

(** An [EmailField] ([max_length=254]). *)
Definition email_field (v : option string) : option string :=
  match char_field true (Some 254%nat) v with
  | Some s => if valid_email s then Some s else None
  | None => None
  end.

(** A required [ChoiceField] over [User.Role.choices]. *)
Definition role_field (v : option string) : option Role :=
  match v with Some s => role_of_string s | None => None end.

(** [CheckboxInput.value_from_datadict] followed by [BooleanField.clean]
    ([required=False]). *)
Definition checkbox_field (v : option string) : bool :=
  match v with
  | None => false
  | Some s => if String.eqb (Py.lower s) "false" then false
              else negb (String.eqb s "")
  end.

(** [Model.validate_unique] for [email]: another row with the same
    email string.  The column is [unique=True]: an exact comparison. *)
Definition email_taken (exclude_pk : option Z) (e : string) (l : list User) : bool :=
  existsb (fun v => String.eqb (email v) e &&
                    match exclude_pk with Some k => negb (Z.eqb (pk v) k) | None => true end) l.

End Forms.

Notation "'let?' x := e 'in' k" :=
  (match e with Some x => k | None => None end)
  (at level 200, x name, e at level 100, k at level 200).

(** ** [UserCreationForm] and [user_create] *)

(** The cleaned data of a valid [UserCreationForm]. *)
Record CreationData := mkCreationData {
  cd_email : string; cd_first_name : string; cd_last_name : string;
  cd_role : Role; cd_department : string; cd_job_title : string;
  cd_is_active : bool; cd_password1 : string
}.

Definition creation_form_clean (post : QueryDict) (l : list User) : option CreationData :=
  let? e := Forms.email_field (qd_get post "email") in
  let? fn := Forms.char_field false (Some 150%nat) (qd_get post "first_name") in
  let? ln := Forms.char_field false (Some 150%nat) (qd_get post "last_name") in
  let? r := Forms.role_field (qd_get post "role") in
  let? dep := Forms.char_field false (Some 100%nat) (qd_get post "department") in
  let? jt := Forms.char_field false (Some 100%nat) (qd_get post "job_title") in
  let act := Forms.checkbox_field (qd_get post "is_active") in
  let? p1 := Forms.char_field true None (qd_get post "password1") in
  let? p2 := Forms.char_field true None (qd_get post "password2") in
  (* clean_password2 *)
  if negb (String.eqb p1 p2) then None
  else if Nat.ltb (String.length p1) 8 then None
  (* _post_clean: validate_unique *)
  else if Forms.email_taken None e l then None
  else Some (mkCreationData e fn ln r dep jt act p1).

Definition next_pk (l : list User) : Z :=
  1 + fold_left (fun m v => Z.max m (pk v)) l 0.

(** [UserCreationForm.save()]: a new row with the model defaults for
    the fields the form does not have. *)
Definition creation_form_save (cd : CreationData) (now_ : Z) (l : list User) : User :=
  mkUser (next_pk l) (cd_email cd) (cd_password1 cd) (cd_first_name cd) (cd_last_name cd)
    (cd_role cd) (cd_is_active cd) false false "" (cd_department cd) (cd_job_title cd)
    None "" now_ None now_.

Definition user_create_impl : View :=
  fun req w =>
    if String.eqb (method req) "POST" then
      match creation_form_clean (POST req) (db w) with
      | Some cd =>
          let u := creation_form_save cd (now req) (db w) in
          let w := set_db (db w ++ [u]) w in
          (Redirect "accounts:user_list",
           add_msg Success ("User " ++ email u ++ " created successfully.") w)
      | None => (Render "accounts/user_form.html", w)
      end
    else (Render "accounts/user_form.html", w).

Definition user_create : View := admin_required user_create_impl.

(** ** [user_detail] *)

Definition user_detail_impl (k : Z) : View :=
  fun req => get_object_or_404 k (ret Http404)
               (fun _ => ret (Render "accounts/user_detail.html")).

Definition user_detail (k : Z) : View := admin_required (user_detail_impl k).

(** ** [AdminUserUpdateForm] and [user_update] *)

Definition file_field (files : QueryDict) (name : string) (initial : option string)
  : option string :=
  match qd_get files name with Some f => Some f | None => initial end.

(** [AdminUserUpdateForm(request.POST, request.FILES, instance=user)]:
    [is_valid()] and the instance built by [construct_instance]. *)
Definition admin_update_form (post files : QueryDict) (l : list User) (u : User)
  : option User :=
  let? e := Forms.email_field (qd_get post "email") in
  let? fn := Forms.char_field false (Some 150%nat) (qd_get post "first_name") in
  let? ln := Forms.char_field false (Some 150%nat) (qd_get post "last_name") in
  let? r := Forms.role_field (qd_get post "role") in
  let act := Forms.checkbox_field (qd_get post "is_active") in
  let? ph := Forms.char_field false (Some 20%nat) (qd_get post "phone") in
  let? dep := Forms.char_field false (Some 100%nat) (qd_get post "department") in
  let? jt := Forms.char_field false (Some 100%nat) (qd_get post "job_title") in
  let? b := Forms.char_field false (Some 500%nat) (qd_get post "bio") in
  let pic := file_field files "profile_picture" (profile_picture u) in
  if Forms.email_taken (Some (pk u)) e l then None
  else Some (mkUser (pk u) e (password u) fn ln r act (is_staff u) (is_superuser u)
               ph dep jt pic b (date_joined u) (last_login u) (updated_at u)).

(** [instance.save()]: [updated_at] is [auto_now]. *)
Definition touch (now_ : Z) (u : User) : User :=
  mkUser (pk u) (email u) (password u) (first_name u) (last_name u) (role u)
    (is_active u) (is_staff u) (is_superuser u) (phone u) (department u)
    (job_title u) (profile_picture u) (bio u) (date_joined u) (last_login u) now_.

Definition user_update_impl (k : Z) : View :=
  fun req => get_object_or_404 k (ret Http404) (fun user w =>
    if String.eqb (method req) "POST" then
      match admin_update_form (POST req) (FILES req) (db w) user with
      | Some u =>
          let w := set_db (save_row (touch (now req) u) (db w)) w in
          (Redirect "accounts:user_list",
           add_msg Success ("User " ++ email u ++ " updated successfully.") w)
      | None => (Render "accounts/user_form.html", w)
      end
    else (Render "accounts/user_form.html", w)).

Definition user_update (k : Z) : View := admin_required (user_update_impl k).

(** ** [user_delete] and [user_toggle_status] *)

(** [user == request.user]: model instances compare by primary key. *)
Definition same_user (u : User) (ru : option User) : bool :=
  match ru with Some v => Z.eqb (pk u) (pk v) | None => false end.

Definition user_delete_impl (k : Z) : View :=
  fun req => get_object_or_404 k (ret Http404) (fun user =>
    if same_user user (req_user req) then
      messages_error "You cannot delete your own account." ;;;
      ret (Redirect "accounts:user_list")
    else
      modify (fun w => set_db (delete_row (pk user) (db w)) w) ;;;
      messages_success ("User " ++ email user ++ " deleted successfully.") ;;;
      ret (Redirect "accounts:user_list")).

Definition user_delete (k : Z) : View :=
  admin_required (require_POST (user_delete_impl k)).

Definition set_active (b : bool) (u : User) : User :=
  mkUser (pk u) (email u) (password u) (first_name u) (last_name u) (role u)
    b (is_staff u) (is_superuser u) (phone u) (department u)
    (job_title u) (profile_picture u) (bio u) (date_joined u) (last_login u) (updated_at u).

Definition user_toggle_status_impl (k : Z) : View :=
  fun req => get_object_or_404 k (ret Http404) (fun user =>
    if same_user user (req_user req) then
      messages_error "You cannot deactivate your own account." ;;;
      ret (Redirect "accounts:user_list")
    else
      let user := touch (now req) (set_active (negb (is_active user)) user) in
      modify (fun w => set_db (save_row user (db w)) w) ;;;
      let status := if is_active user then "activated" else "deactivated" in
      messages_success ("User " ++ email user ++ " has been " ++ status ++ ".") ;;;
      ret (Redirect "accounts:user_list")).

Definition user_toggle_status (k : Z) : View :=
  admin_required (require_POST (user_toggle_status_impl k)).

(** The admin user-management operations of [accounts/urls.py]. *)
Inductive AdminOp :=
  | OpList | OpCreate | OpDetail (k : Z) | OpUpdate (k : Z)
  | OpDelete (k : Z) | OpToggle (k : Z).

(** The view routed for each operation. *)
Definition op_view (o : AdminOp) : View :=
  match o with
  | OpList => user_list
  | OpCreate => user_create
  | OpDetail k => user_detail k
  | OpUpdate k => user_update k
  | OpDelete k => user_delete k
  | OpToggle k => user_toggle_status k
  end.

(** The function each view wraps with [admin_required]. *)
Definition op_handler (o : AdminOp) : View :=
  match o with
  | OpList => user_list_impl
  | OpCreate => user_create_impl
  | OpDetail k => user_detail_impl k
  | OpUpdate k => user_update_impl k
  | OpDelete k => require_POST (user_delete_impl k)
  | OpToggle k => require_POST (user_toggle_status_impl k)
  end.

(** ** [UserUpdateForm] and [profile_update] *)

(** [UserUpdateForm(request.POST, request.FILES, instance=request.user)]:
    [Meta.fields] lists the profile fields only; any other submitted key
    is never read. *)
Definition user_update_form (post files : QueryDict) (u : User) : option User :=
  let? fn := Forms.char_field false (Some 150%nat) (qd_get post "first_name") in
  let? ln := Forms.char_field false (Some 150%nat) (qd_get post "last_name") in
  let? ph := Forms.char_field false (Some 20%nat) (qd_get post "phone") in
  let? dep := Forms.char_field false (Some 100%nat) (qd_get post "department") in
  let? jt := Forms.char_field false (Some 100%nat) (qd_get post "job_title") in
  let? b := Forms.char_field false (Some 500%nat) (qd_get post "bio") in
  let pic := file_field files "profile_picture" (profile_picture u) in
  Some (mkUser (pk u) (email u) (password u) fn ln (role u) (is_active u)
          (is_staff u) (is_superuser u) ph dep jt pic b (date_joined u)
          (last_login u) (updated_at u)).

Definition profile_update_impl : View :=
  fun req w =>
    match req_user req with
    | Some me =>
        if String.eqb (method req) "POST" then
          match user_update_form (POST req) (FILES req) me with
          | Some u =>
              let w := set_db (save_row (touch (now req) u) (db w)) w in
              (Redirect "accounts:profile",
               add_msg Success "Your profile has been updated successfully." w)
          | None => (Render "accounts/profile_edit.html", w)
          end
        else (Render "accounts/profile_edit.html", w)
    | None => (Render "accounts/profile_edit.html", w)  (* unreachable *)
    end.

Definition profile_update : View := login_required profile_update_impl.

(** ** Authentication: [LoginForm], [ModelBackend], [login_view] *)

Inductive AuthResult := AuthNone | AuthUser (u : User) | AuthMultiple.

(** [authenticate(username=email, password=password)] with Django's
    [ModelBackend]: [get_by_natural_key] is [User.objects.get(email=...)]
    (exact match), then [check_password] and [user_can_authenticate]
    ([is_active]). *)
Definition authenticate (e pw : string) (l : list User) : AuthResult :=
  match filter (fun v => String.eqb (email v) e) l with
  | [] => AuthNone
  | [u] => if check_password u pw && is_active u then AuthUser u else AuthNone
  | _ => AuthMultiple
  end.

Inductive LoginClean := LoginOk (u : User) (remember_me : bool) | LoginInvalid | LoginCrash.

(** [LoginForm(request.POST).is_valid()] with [LoginForm.clean]. *)
Definition login_form_clean (post : QueryDict) (l : list User) : LoginClean :=
  let e := Forms.email_field (qd_get post "email") in
  let p := Forms.char_field true None (qd_get post "password") in
  let rm := Forms.checkbox_field (qd_get post "remember_me") in
  match e, p with
  | Some e, Some p =>
      match authenticate e p l with
      | AuthNone => LoginInvalid            (* 'Invalid email or password.' *)
      | AuthMultiple => LoginCrash          (* MultipleObjectsReturned *)
      | AuthUser u =>
          if negb (is_active u) then LoginInvalid (* 'This account has been deactivated.' *)
          else LoginOk u rm
      end
  | _, _ => LoginInvalid
  end.

(** Setting [last_login] on one row ([save(update_fields=['last_login'])]). *)
Definition set_last_login (t : Z) (u : User) : User :=
  mkUser (pk u) (email u) (password u) (first_name u) (last_name u) (role u)
    (is_active u) (is_staff u) (is_superuser u) (phone u) (department u)
    (job_title u) (profile_picture u) (bio u) (date_joined u) (Some t) (updated_at u).

(** [user.save(update_fields=['last_login'])]: only that column of the
    user's row is written. *)
Definition save_last_login (u : User) (t : Z) (l : list User) : list User :=
  map (fun v => if Z.eqb (pk v) (pk u) then set_last_login t v else v) l.

(** [django.contrib.auth.login(request, user)]: binds the session to the
    user; the [user_logged_in] signal runs [update_last_login]. *)
Definition auth_login (u : User) (now_ : Z) (w : World) : World :=
  mkWorld (save_last_login u now_ (db w)) (msgs w) (Some (pk u))
    (session_expires_at_browser_close w).

Definition set_expiry_0 (w : World) : World :=
  mkWorld (db w) (msgs w) (session w) true.

Definition login_view_impl : View :=
  fun req w =>
    if String.eqb (method req) "POST" then
      match login_form_clean (POST req) (db w) with
      | LoginOk u rm =>
          let w := auth_login u (now req) w in
          let w := if rm then w else set_expiry_0 w in
          let w := add_msg Success ("Welcome back, " ++ get_short_name u ++ "!") w in
          match qd_get (GET req) "next" with
          | Some next_url => if String.eqb next_url "" then (Redirect "dashboard:router", w)
                             else (Redirect next_url, w)
          | None => (Redirect "dashboard:router", w)
          end
      | LoginCrash => (ServerError "MultipleObjectsReturned", w)
      | LoginInvalid => (Render "accounts/login.html", w)
      end
    else (Render "accounts/login.html", w).

Definition login_view : View := anonymous_required login_view_impl.

(** [request.user] on a later request: [ModelBackend.get_user] loads the
    session's row, and refuses an inactive one. *)
Definition session_user (w : World) : option User :=
  match session w with
  | Some k => match find_pk k (db w) with
              | Some u => if is_active u then Some u else None
              | None => None
              end
  | None => None
  end.

(** ** [dashboard/views.py] *)

Definition dashboard_router_impl : View :=
  fun req =>
    match user_role req with
    | Some ADMIN => ret (Redirect "dashboard:admin")
    | Some STAFF => ret (Redirect "dashboard:staff")
    | _ => ret (Redirect "dashboard:user")
    end.

Definition dashboard_router : View := login_required dashboard_router_impl.

(** ** [accounts/middleware.py] *)

Module Middleware.

Definition ADMIN_ONLY_PATTERNS : list string :=
  ["/users/"; "/users/create/"; "/users/delete/"; "/analytics/"].
Definition STAFF_PATTERNS : list string := ["/staff/"].
Definition PUBLIC_PATTERNS : list string :=
  ["/accounts/login/"; "/accounts/logout/"; "/static/"; "/media/"; "/admin/"].

Inductive Decision := PassThrough | Deny (message : string).

(** [RoleBasedAccessMiddleware.__call__]: whether the request reaches
    [get_response], or is redirected to ['dashboard:router'] with the
    message. *)
Definition role_based_access (p : string) (ru : option User) : Decision :=
  if existsb (Py.startswith p) PUBLIC_PATTERNS then PassThrough
  else match ru with
       | None => PassThrough
       | Some u =>
           if existsb (Py.startswith p) ADMIN_ONLY_PATTERNS &&
              negb (role_eqb (role u) ADMIN)
           then Deny "Administrator access required."
           else if existsb (Py.startswith p) STAFF_PATTERNS &&
                   negb (role_eqb (role u) ADMIN || role_eqb (role u) STAFF)
           then Deny "Staff access required."
           else PassThrough
       end.

(** [UpdateLastLoginMiddleware.__call__]: the new value of
    [request.user.last_login] ([None]: no write). *)
Definition HOUR : Z := 3600 * 1000000.

Definition last_login_update (now_ : Z) (u : User) : option Z :=
  match last_login u with
  | Some t => if HOUR <? now_ - t then Some now_ else None
  | None => Some now_
  end.

Definition update_last_login (req : Request) (w : World) : World :=
  match req_user req with
  | Some u =>
      match last_login_update (now req) u with
      | Some t => set_db (save_last_login u t (db w)) w
      | None => w
      end
  | None => w
  end.

End Middleware.

(** ** URL configuration ([staffly/urls.py], [accounts/urls.py],
    [dashboard/urls.py]) and the guard each served view carries *)

Module Urls.

Inductive Seg := Lit (s : string) | IntSeg.

(** The per-view guard: [admin_required], [staff_required],
    [login_required], [anonymous_required], or none. *)
Inductive Guard := GAdmin | GStaff | GLogin | GAnonymous | GNone.

(** The routes of the project's own views, as the segments between the
    slashes; the Django admin site mounted at ['admin/'] and the DEBUG
    file routes are added in [served] below. *)
Definition urlpatterns : list (list Seg * Guard) :=
  [ ([], GNone);
    ([Lit "accounts"; Lit "login"], GAnonymous);
    ([Lit "accounts"; Lit "logout"], GLogin);
    ([Lit "accounts"; Lit "users"], GAdmin);
    ([Lit "accounts"; Lit "users"; Lit "create"], GAdmin);
    ([Lit "accounts"; Lit "users"; IntSeg], GAdmin);
    ([Lit "accounts"; Lit "users"; IntSeg; Lit "edit"], GAdmin);
    ([Lit "accounts"; Lit "users"; IntSeg; Lit "delete"], GAdmin);
    ([Lit "accounts"; Lit "users"; IntSeg; Lit "toggle-status"], GAdmin);
    ([Lit "accounts"; Lit "profile"], GLogin);
    ([Lit "accounts"; Lit "profile"; Lit "edit"], GLogin);
    ([Lit "accounts"; Lit "profile"; Lit "password"], GLogin);
    ([Lit "dashboard"], GLogin);
    ([Lit "dashboard"; Lit "admin"], GAdmin);
    ([Lit "dashboard"; Lit "staff"], GStaff);
    ([Lit "dashboard"; Lit "user"], GLogin) ].

Definition all_digits (s : string) : bool :=
  negb (String.eqb s "") && forallb Py.is_digit (list_ascii_of_string s).

Fixpoint match_segs (pat : list Seg) (parts : list string) : bool :=
  match pat, parts with
  | [], [] => true
  | Lit l :: pat', p :: parts' => String.eqb l p && match_segs pat' parts'
  | IntSeg :: pat', p :: parts' => all_digits p && match_segs pat' parts'
  | _, _ => false
  end.

(** Resolving [request.path]: a leading ['/'], the segments, and the
    trailing ['/'] every route ends with. *)
Definition resolve (p : string) : option Guard :=
  match Py.split "/" p with
  | "" :: rest =>
      let parts := removelast rest in
      match last rest "x" with
      | "" =>
          option_map snd (find (fun '(pat, _) => match_segs pat parts) urlpatterns)
      | _ => None
      end
  | _ => None
  end.

(** The per-view guard's decision: does the wrapped view run? *)
Definition guard_allows (g : Guard) (ru : option User) : bool :=
  match g, ru with
  | GAdmin, Some u => role_eqb (role u) ADMIN
  | GStaff, Some u => role_eqb (role u) ADMIN || role_eqb (role u) STAFF
  | GLogin, Some _ => true
  | GAnonymous, Some _ => false
  | GAnonymous, None => true
  | GNone, _ => true
  | _, None => false
  end.

(** [DEBUG] of [staffly/settings/development.py]. *)
Definition DEBUG : bool := true.

(** Whether [staffly/urls.py] serves the path: one of the routes above;
    a page of the admin site ([path('admin/', admin.site.urls)]), which
    takes every path under ['/admin/'] and answers unknown ones itself;
    or, when [DEBUG], a file under one of the URL prefixes given to
    [static()] ([MEDIA_URL] and [STATIC_URL], passed here as
    [static_urls] since their values are set outside the sources). *)
Definition served (static_urls : list string) (p : string) : bool :=
  match resolve p with Some _ => true | None => false end
  || Py.startswith p "/admin/"
  || DEBUG && existsb (Py.startswith p) static_urls.

End Urls.

(** ** Sample rows and requests *)

Module Sample.

Definition admin : User :=
  mkUser 1 "admin@staffly.io" "adminpass1" "Ada" "Min" ADMIN true true true
    "" "IT" "Administrator" None "" 100 None 100.

Definition staff : User :=
  mkUser 2 "sam@staffly.io" "staffpass1" "Sam" "Staff" STAFF true false false
    "" "Sales" "Clerk" None "" 200 None 200.

Definition alice : User :=
  mkUser 3 "alice@example.com" "alicepass" "Alice" "Doe" USER true false false
    "" "Engineering" "Developer" None "" 300 None 300.

Definition world (l : list User) : World := mkWorld l [] None false.

Definition w0 : World := world [admin; staff; alice].

Definition req (p m : string) (u : option User) (get post : QueryDict) (t : Z) : Request :=
  mkRequest p m u get post [] t.

End Sample.

(** ** Further code of the repository *)

(** [str(n)] for a count. *)
Fixpoint str_of_nat_aux (fuel n : nat) (acc : string) : string :=
  match fuel with
  | O => acc
  | S f =>
      let acc' := String (ascii_of_nat (48 + n mod 10)) acc in
      if Nat.ltb n 10 then acc' else str_of_nat_aux f (n / 10) acc'
  end.

Definition str_of_nat (n : nat) : string := str_of_nat_aux (S n) n "".

(** *** [RoleRequiredMixin] ([accounts/decorators.py]) *)

(** [RoleRequiredMixin.dispatch], with [super().dispatch] as [dispatch]. *)
Definition role_required_mixin (allowed_roles : list Role) (dispatch : View) : View :=
  fun req =>
    match req_user req with
    | None => ret (Redirect "accounts:login")
    | Some u =>
        if existsb (role_eqb (role u)) allowed_roles then dispatch req
        else messages_error "You do not have permission to access this page." ;;;
             ret (Redirect "dashboard:router")
    end.

Definition AdminRequiredMixin (dispatch : View) : View := role_required_mixin [ADMIN] dispatch.
Definition StaffRequiredMixin (dispatch : View) : View := role_required_mixin [ADMIN; STAFF] dispatch.

(** *** Admin site actions ([accounts/admin.py]) *)

Module AdminActions.

(** [queryset.update(...)] on the rows selected by [sel]: [update] does
    not go through [save()], so [updated_at] is not touched; it returns
    the number of rows matched. *)
Definition queryset_update (sel : User -> bool) (f : User -> User) (l : list User)
  : nat * list User :=
  (length (filter sel l), map (fun v => if sel v then f v else v) l).

Definition set_role (r : Role) (u : User) : User :=
  mkUser (pk u) (email u) (password u) (first_name u) (last_name u) r
    (is_active u) (is_staff u) (is_superuser u) (phone u) (department u)
    (job_title u) (profile_picture u) (bio u) (date_joined u) (last_login u) (updated_at u).

(** The admin changelist's [queryset]: the rows whose primary keys were
    ticked. *)
Definition selected (pks : list Z) (v : User) : bool := existsb (Z.eqb (pk v)) pks.

(** [queryset.exclude(pk=request.user.pk)] *)
Definition exclude_me (me : User) (sel : User -> bool) (v : User) : bool :=
  sel v && negb (Z.eqb (pk v) (pk me)).

(** Each action takes [request.user], the ticked primary keys and the
    world; [message_user] adds an INFO message. *)
Definition activate_users (me : User) (pks : list Z) : M unit :=
  fun w => let '(count, l) := queryset_update (selected pks) (set_active true) (db w) in
           (tt, add_msg Info (str_of_nat count ++ " user(s) activated.") (set_db l w)).

Definition deactivate_users (me : User) (pks : list Z) : M unit :=
  fun w => let '(count, l) := queryset_update (exclude_me me (selected pks)) (set_active false) (db w) in
           (tt, add_msg Info (str_of_nat count ++ " user(s) deactivated.") (set_db l w)).

Definition make_staff (me : User) (pks : list Z) : M unit :=
  fun w => let '(count, l) := queryset_update (selected pks) (set_role STAFF) (db w) in
           (tt, add_msg Info (str_of_nat count ++ " user(s) changed to Staff role.") (set_db l w)).

Definition make_regular_user (me : User) (pks : list Z) : M unit :=
  fun w => let '(count, l) := queryset_update (exclude_me me (selected pks)) (set_role USER) (db w) in
           (tt, add_msg Info (str_of_nat count ++ " user(s) changed to Regular User role.") (set_db l w)).

End AdminActions.

(** *** [UserManager] ([accounts/managers.py]) *)

Module Manager.

(** [email.strip().rsplit('@', 1)]: [None] when there is no ['@']. *)
Definition rsplit_at (s : string) : option (string * string) :=
  match Py.split "@" s with
  | [_] | [] => None
  | parts => Some (String.concat "@" (removelast parts), last parts "")
  end.

(** [BaseUserManager.normalize_email]: the domain part is lowercased. *)
Definition normalize_email (e : string) : string :=
  match rsplit_at (Py.strip e) with
  | Some (name, domain) => name ++ "@" ++ Py.lower domain
  | None => e
  end.

(** The [**extra_fields] these functions read ([None]: not passed). *)
Record ExtraFields := mkExtra {
  xf_role : option Role;
  xf_is_active : option bool;
  xf_is_staff : option bool;
  xf_is_superuser : option bool
}.

Definition no_extra : ExtraFields := mkExtra None None None None.

Definition setdefault {A} (o : option A) (d : A) : option A :=
  match o with Some a => Some a | None => Some d end.

Inductive Created := CreatedUser (u : User) | ValueError (msg : string) | IntegrityError.

(** [create_user(email, password, **extra_fields)]: the model defaults
    fill the remaining fields ([is_staff], [is_superuser] default to
    [False]); [save()] inserts a row, refused by the unique index on
    [email].  (A [password] of [None], which sets an unusable password,
    is not modelled.) *)
Definition create_user (e pw : string) (xf : ExtraFields) (now_ : Z) (l : list User)
  : Created * list User :=
  if String.eqb e "" then (ValueError "The Email field must be set", l)
  else
    let e := normalize_email e in
    let r := match setdefault (xf_role xf) USER with Some r => r | None => USER end in
    let act := match setdefault (xf_is_active xf) true with Some b => b | None => true end in
    let st := match xf_is_staff xf with Some b => b | None => false end in
    let su := match xf_is_superuser xf with Some b => b | None => false end in
    let u := mkUser (next_pk l) e pw "" "" r act st su "" "" "" None "" now_ None now_ in
    if existsb (fun v => String.eqb (email v) e) l then (IntegrityError, l)
    else (CreatedUser u, app l [u]).

(** [create_superuser(email, password, **extra_fields)] *)
Definition create_superuser (e pw : string) (xf : ExtraFields) (now_ : Z) (l : list User)
  : Created * list User :=
  let xf := mkExtra (setdefault (xf_role xf) ADMIN) (setdefault (xf_is_active xf) true)
              (setdefault (xf_is_staff xf) true) (setdefault (xf_is_superuser xf) true) in
  if negb (match xf_is_staff xf with Some true => true | _ => false end)
  then (ValueError "Superuser must have is_staff=True.", l)
  else if negb (match xf_is_superuser xf with Some true => true | _ => false end)
  then (ValueError "Superuser must have is_superuser=True.", l)
  else create_user e pw xf now_ l.

(** [get_admins], [get_staff], [get_regular_users] *)
Definition get_admins (l : list User) : list User :=
  filter (fun v => role_eqb (role v) ADMIN && is_active v) l.
Definition get_staff (l : list User) : list User :=
  filter (fun v => role_eqb (role v) STAFF && is_active v) l.
Definition get_regular_users (l : list User) : list User :=
  filter (fun v => role_eqb (role v) USER && is_active v) l.

End Manager.

(** *** [password_change] ([accounts/views.py]) and [PasswordChangeForm] *)

(** [user.set_password(raw)] (the hash is opaque here). *)
Definition set_password (raw : string) (u : User) : User :=
  mkUser (pk u) (email u) raw (first_name u) (last_name u) (role u)
    (is_active u) (is_staff u) (is_superuser u) (phone u) (department u)
    (job_title u) (profile_picture u) (bio u) (date_joined u) (last_login u) (updated_at u).

(** A required [CharField(strip=False)] ([new_password1], [new_password2]). *)
Definition raw_field (v : option string) : option string :=
  match v with Some s => if String.eqb s "" then None else Some s | None => None end.

Section PasswordChange.

(** [password_validation.validate_password(password, user)]: the
    validators come from [AUTH_PASSWORD_VALIDATORS] in the settings,
    which are not part of [src/]; they are a parameter. *)
Variable validate_password : string -> User -> bool.

(** [PasswordChangeForm(request.user, request.POST).is_valid()]:
    [clean_old_password] and [SetPasswordForm.clean_new_password2];
    the result is [new_password1]. *)
Definition password_change_form (post : QueryDict) (me : User) : option string :=
  let? old := Forms.char_field true None (qd_get post "old_password") in
  if negb (check_password me old) then None else
  let? p1 := raw_field (qd_get post "new_password1") in
  let? p2 := raw_field (qd_get post "new_password2") in
  if negb (String.eqb p1 p2) then None
  else if negb (validate_password p2 me) then None
  else Some p1.

(** The session is kept by [update_session_auth_hash]. *)
Definition password_change_impl : View :=
  fun req w =>
    match req_user req with
    | Some me =>
        if String.eqb (method req) "POST" then
          match password_change_form (POST req) me with
          | Some p1 =>
              let w := set_db (save_row (touch (now req) (set_password p1 me)) (db w)) w in
              (Redirect "accounts:profile",
               add_msg Success "Your password has been changed successfully." w)
          | None => (Render "accounts/password_change.html", w)
          end
        else (Render "accounts/password_change.html", w)
    | None => (Render "accounts/password_change.html", w)  (* unreachable *)
    end.

Definition password_change : View := login_required password_change_impl.

End PasswordChange.

(** *** [logout_view] *)

Definition logout_view_impl : View :=
  fun req w =>
    (Redirect "accounts:login",
     add_msg Info "You have been logged out successfully."
       (mkWorld (db w) (msgs w) None false)).

Definition logout_view : View := login_required logout_view_impl.

(** *** [dashboard/views.py]: the dashboards' data *)

Module Dashboard.

Definition first_name_asc (x y : User) : bool :=
  QS.lex_leb (QS.codes (first_name x)) (QS.codes (first_name y)).

(** [staff_dashboard]: [colleagues] and [department_members]. *)
Definition colleagues (me : User) (l : list User) : list User :=
  firstn 10
    (QS.sort first_name_asc
       (filter (fun v => negb (Z.eqb (pk v) (pk me)))
          (filter (fun v => (role_eqb (role v) STAFF || role_eqb (role v) USER) && is_active v) l))).

Definition department_members (me : User) (l : list User) : list User :=
  if negb (String.eqb (department me) "") then
    filter (fun v => negb (Z.eqb (pk v) (pk me)))
      (filter (fun v => String.eqb (department v) (department me) && is_active v) l)
  else [].

(** [admin_dashboard]'s context; dates are days since the epoch (UTC). *)
Definition DAY : Z := 86400 * 1000000.

Definition date_of (t : Z) : Z := t / DAY.

Record AdminStats := mkStats {
  total_users : nat; active_users : nat; inactive_users : nat;
  admin_count : nat; staff_count : nat; user_count : nat;
  new_users_week : nat; new_users_month : nat;
  recent_users : list User; active_today : nat
}.

Definition count (p : User -> bool) (l : list User) : nat := length (filter p l).

Definition admin_dashboard_context (now_ : Z) (l : list User) : AdminStats :=
  let today := date_of now_ in
  let week_ago := today - 7 in
  let month_ago := today - 30 in
  mkStats (length l) (count is_active l) (count (fun v => negb (is_active v)) l)
    (count (fun v => role_eqb (role v) ADMIN) l)
    (count (fun v => role_eqb (role v) STAFF) l)
    (count (fun v => role_eqb (role v) USER) l)
    (count (fun v => week_ago <=? date_of (date_joined v)) l)
    (count (fun v => month_ago <=? date_of (date_joined v)) l)
    (firstn 5 (QS.sort (fun x y => QS.lex_leb [date_joined y] [date_joined x]) l))
    (count (fun v => match last_login v with Some t => date_of t =? today | None => false end) l).

End Dashboard.

(** ** The table invariant of the [users] table *)

(** The [id] column is the primary key and the [email] column is
    [unique=True]: no two rows share either. *)
Definition table_wf (l : list User) : Prop :=
  NoDup (map pk l) /\ NoDup (map email l).

(** * Properties *)

(** ** Lemmas on the decorators *)

Lemma admin_required_unfold (v : View) (req : Request) (w : World) :
  admin_required v req w =
  match req_user req with
  | Some u => match role u with
              | ADMIN => v req w
              | _ => (Redirect "dashboard:router", add_msg Error "Administrator access required." w)
              end
  | None => (RedirectToLogin (path req), w)
  end.
Proof.
  unfold admin_required, login_required, is_authenticated, user_role.
  destruct (req_user req) as [u|]; simpl; [destruct (role u)|]; reflexivity.
Qed.

Lemma op_view_admin_required (o : AdminOp) : op_view o = admin_required (op_handler o).
Proof. destruct o; reflexivity. Qed.

(** C1: every admin user-management operation (list, create, detail,
    edit, delete, toggle-status) runs its handler exactly when the
    requester is authenticated with role ADMIN; an authenticated
    requester with another role gets the error message and a redirect to
    the role router, with nothing else changed; an anonymous requester is
    redirected to the login flow with the requested path as [next]. *)
Theorem admin_ops_guarded (o : AdminOp) (req : Request) (w : World) :
  (forall u, req_user req = Some u -> role u = ADMIN ->
     op_view o req w = op_handler o req w) /\
  (forall u, req_user req = Some u -> role u <> ADMIN ->
     op_view o req w =
     (Redirect "dashboard:router", add_msg Error "Administrator access required." w)) /\
  (req_user req = None -> op_view o req w = (RedirectToLogin (path req), w)).
Proof.
  rewrite op_view_admin_required, admin_required_unfold.
  split; [|split].
  - intros u Hu Hr. rewrite Hu, Hr. reflexivity.
  - intros u Hu Hr. rewrite Hu. destruct (role u); congruence.
  - intros Hn. rewrite Hn. reflexivity.
Qed.

Lemma admin_ops_guarded_witness :
  (op_view OpList (Sample.req "/accounts/users/" "GET" (Some Sample.admin) [] [] 0) Sample.w0 =
   op_handler OpList (Sample.req "/accounts/users/" "GET" (Some Sample.admin) [] [] 0) Sample.w0) /\
  (op_view (OpDelete 3) (Sample.req "/accounts/users/3/delete/" "POST" (Some Sample.staff) [] [] 0) Sample.w0 =
   (Redirect "dashboard:router", add_msg Error "Administrator access required." Sample.w0)) /\
  (op_view (OpToggle 3) (Sample.req "/accounts/users/3/toggle-status/" "POST" None [] [] 0) Sample.w0 =
   (RedirectToLogin "/accounts/users/3/toggle-status/", Sample.w0)).
Proof.
  split; [|split].
  - apply (proj1 (admin_ops_guarded OpList _ Sample.w0) Sample.admin); reflexivity.
  - apply (proj1 (proj2 (admin_ops_guarded (OpDelete 3) _ Sample.w0)) Sample.staff);
      [reflexivity | discriminate].
  - exact (proj2 (proj2 (admin_ops_guarded (OpToggle 3)
      (Sample.req "/accounts/users/3/toggle-status/" "POST" None [] [] 0) Sample.w0))
      eq_refl).
Defined.

(** ** Lemmas on the table operations *)

Lemma find_pk_pk (k : Z) (l : list User) (u : User) :
  find_pk k l = Some u -> pk u = k.
Proof.
  unfold find_pk. intros H. apply find_some in H. destruct H as [_ H].
  now apply Z.eqb_eq.
Qed.

Lemma find_pk_save_row (k : Z) (x : User) (l : list User) :
  pk x = k -> find_pk k l <> None -> find_pk k (save_row x l) = Some x.
Proof.
  intros Hx. induction l as [|v l IH]; simpl; [congruence|].
  destruct (Z.eqb (pk v) (pk x)) eqn:E; simpl.
  - rewrite Hx, Z.eqb_refl. reflexivity.
  - subst k. rewrite E. exact IH.
Qed.

Lemma find_pk_save_last_login (u v : User) (t : Z) (l : list User) :
  find_pk (pk u) l = Some v ->
  find_pk (pk u) (save_last_login u t l) = Some (set_last_login t v).
Proof.
  induction l as [|x l IH]; simpl; [discriminate|].
  destruct (Z.eqb (pk x) (pk u)) eqn:E; simpl.
  - intros H. injection H as <-. rewrite E. reflexivity.
  - rewrite E. exact IH.
Qed.

Lemma admin_update_form_fields (post files : QueryDict) (l : list User) (row u : User) :
  admin_update_form post files l row = Some u ->
  pk u = pk row /\ Forms.role_field (qd_get post "role") = Some (role u) /\
  is_active u = Forms.checkbox_field (qd_get post "is_active").
Proof.
  unfold admin_update_form.
  repeat match goal with
         | |- context [match ?e with Some _ => _ | None => _ end] =>
             destruct e eqn:?; [|discriminate]
         end.
  destruct (Forms.email_taken _ _ _); [discriminate|].
  intros H. injection H as <-. simpl. auto.
Qed.

Ltac reach_view H1 H2 H3 :=
  rewrite admin_required_unfold, H1, H2; unfold require_POST; rewrite H3; simpl.

(** C2 (fails on the code): the admin edit view lacks the self-target
    check that [user_delete], [user_toggle_status] and the admin actions
    have, so an ADMIN who submits their own record with role USER is
    demoted. *)
Lemma self_demote_counterexample :
  let r := user_update 1
             (Sample.req "/accounts/users/1/edit/" "POST" (Some Sample.admin) []
                [("email", "admin@staffly.io"); ("role", "USER"); ("is_active", "on")] 900)
             Sample.w0 in
  role Sample.admin = ADMIN /\
  fst r = Redirect "accounts:user_list" /\
  option_map role (find_pk 1 (db Sample.w0)) = Some ADMIN /\
  option_map role (find_pk 1 (db (snd r))) = Some USER.
Proof. vm_compute. repeat split. Qed.

(** C2 (fails on the code): when the target is the acting ADMIN's own
    row, a POST to delete or to toggle-status leaves the table unchanged,
    adds an error message and redirects to the user list, as the claim
    says; the admin edit view has no such check: a valid submission on
    one's own row is saved, with the role and active flag taken from the
    submitted data, so an ADMIN can demote or deactivate themself. *)
Theorem self_mutations_guarded (me row : User) (req : Request) (w : World) :
  req_user req = Some me -> role me = ADMIN -> method req = "POST" ->
  find_pk (pk me) (db w) = Some row ->
  user_delete (pk me) req w =
    (Redirect "accounts:user_list", add_msg Error "You cannot delete your own account." w) /\
  user_toggle_status (pk me) req w =
    (Redirect "accounts:user_list", add_msg Error "You cannot deactivate your own account." w) /\
  (forall u, admin_update_form (POST req) (FILES req) (db w) row = Some u ->
     find_pk (pk me) (db (snd (user_update (pk me) req w))) = Some (touch (now req) u) /\
     Forms.role_field (qd_get (POST req) "role") = Some (role u) /\
     is_active u = Forms.checkbox_field (qd_get (POST req) "is_active")).
Proof.
  intros Hu Hr Hm Hf.
  assert (Hpk : pk row = pk me) by (eapply find_pk_pk; eauto).
  split; [|split].
  - unfold user_delete. reach_view Hu Hr Hm.
    unfold user_delete_impl, get_object_or_404. rewrite Hf.
    unfold same_user. rewrite Hu, Hpk, Z.eqb_refl. reflexivity.
  - unfold user_toggle_status. reach_view Hu Hr Hm.
    unfold user_toggle_status_impl, get_object_or_404. rewrite Hf.
    unfold same_user. rewrite Hu, Hpk, Z.eqb_refl. reflexivity.
  - intros u Hform.
    destruct (admin_update_form_fields _ _ _ _ _ Hform) as (Hpku & Hrole & Hact).
    split; [|split; assumption].
    unfold user_update. rewrite admin_required_unfold, Hu, Hr.
    unfold user_update_impl, get_object_or_404. rewrite Hf, Hm. simpl.
    rewrite Hform. simpl.
    apply find_pk_save_row; [simpl; congruence | congruence].
Qed.

Lemma self_mutations_guarded_witness :
  user_delete 1 (Sample.req "/accounts/users/1/delete/" "POST" (Some Sample.admin) [] [] 0) Sample.w0 =
    (Redirect "accounts:user_list", add_msg Error "You cannot delete your own account." Sample.w0) /\
  exists u,
    find_pk 1 (db (snd (user_update 1
      (Sample.req "/accounts/users/1/edit/" "POST" (Some Sample.admin) []
         [("email", "admin@staffly.io"); ("role", "USER"); ("is_active", "on")] 900)
      Sample.w0))) = Some (touch 900 u) /\ role u = USER.
Proof.
  split.
  - exact (proj1 (self_mutations_guarded Sample.admin Sample.admin
                    (Sample.req "/accounts/users/1/delete/" "POST" (Some Sample.admin) [] [] 0)
                    Sample.w0 eq_refl eq_refl eq_refl eq_refl)).
  - destruct (self_mutations_guarded Sample.admin Sample.admin
                (Sample.req "/accounts/users/1/edit/" "POST" (Some Sample.admin) []
                   [("email", "admin@staffly.io"); ("role", "USER"); ("is_active", "on")] 900)
                Sample.w0 eq_refl eq_refl eq_refl eq_refl) as (_ & _ & H).
    destruct (admin_update_form
                [("email", "admin@staffly.io"); ("role", "USER"); ("is_active", "on")] []
                (db Sample.w0) Sample.admin) as [u|] eqn:E;
      [|vm_compute in E; discriminate].
    exists u. destruct (H u E) as (H1 & H2 & _). split; [exact H1|].
    vm_compute in H2. injection H2 as H2. symmetry. exact H2.
Defined.

(** C3 (fails on the code): the middleware's prefixes ['/users/'],
    ['/analytics/'], ['/staff/'] are not where the guarded views are
    served (['/accounts/users/...'], ['/dashboard/staff/']): for a STAFF
    user on the user list, and a USER on the staff dashboard, the view's
    decorator denies while the middleware lets the request through; the
    prefix ['/users/'] itself is not a served URL. *)
Theorem middleware_prefixes_miss_routes :
  Urls.resolve "/accounts/users/" = Some Urls.GAdmin /\
  Urls.guard_allows Urls.GAdmin (Some Sample.staff) = false /\
  Middleware.role_based_access "/accounts/users/" (Some Sample.staff) = Middleware.PassThrough /\
  Urls.resolve "/dashboard/staff/" = Some Urls.GStaff /\
  Urls.guard_allows Urls.GStaff (Some Sample.alice) = false /\
  Middleware.role_based_access "/dashboard/staff/" (Some Sample.alice) = Middleware.PassThrough /\
  Urls.resolve "/users/" = None /\
  fst (user_list (Sample.req "/accounts/users/" "GET" (Some Sample.staff) [] [] 0) Sample.w0) =
    Redirect "dashboard:router".
Proof. vm_compute. repeat split. Qed.

(** ** Lemmas for logging in *)

Lemma filter_email_absent (e : string) (l : list User) :
  ~ In e (map email l) -> filter (fun v => String.eqb (email v) e) l = [].
Proof.
  induction l as [|y l IH]; simpl; [reflexivity|].
  intros Hn. destruct (String.eqb (email y) e) eqn:E.
  - apply String.eqb_eq in E. exfalso. apply Hn. left. exact E.
  - apply IH. intros H. apply Hn. right. exact H.
Qed.

Lemma filter_email_unique (u : User) (l : list User) :
  NoDup (map email l) -> In u l ->
  filter (fun v => String.eqb (email v) (email u)) l = [u].
Proof.
  induction l as [|x l IH]; simpl; [contradiction|].
  intros Hnd Hin. inversion Hnd as [|? ? Hnotin Hnd']; subst.
  destruct Hin as [<-|Hin].
  - rewrite String.eqb_refl. f_equal. apply filter_email_absent. exact Hnotin.
  - destruct (String.eqb (email x) (email u)) eqn:E.
    + apply String.eqb_eq in E. exfalso. apply Hnotin. rewrite E. apply in_map. exact Hin.
    + apply IH; assumption.
Qed.

Lemma find_pk_unique (u : User) (l : list User) :
  NoDup (map pk l) -> In u l -> find_pk (pk u) l = Some u.
Proof.
  unfold find_pk. induction l as [|x l IH]; simpl; [contradiction|].
  intros Hnd Hin. inversion Hnd as [|? ? Hnotin Hnd']; subst.
  destruct Hin as [<-|Hin].
  - rewrite Z.eqb_refl. reflexivity.
  - destruct (Z.eqb (pk x) (pk u)) eqn:E.
    + apply Z.eqb_eq in E. exfalso. apply Hnotin. rewrite E. apply in_map. exact Hin.
    + apply IH; assumption.
Qed.

Lemma authenticate_unique (u : User) (l : list User) (p : string) :
  NoDup (map email l) -> In u l ->
  authenticate (email u) p l = if check_password u p && is_active u then AuthUser u else AuthNone.
Proof.
  intros Hnd Hin. unfold authenticate. rewrite filter_email_unique; auto.
Qed.

(** The landing page [dashboard_router] sends each role to. *)
Definition role_dashboard (r : Role) : string :=
  match r with
  | ADMIN => "dashboard:admin"
  | STAFF => "dashboard:staff"
  | USER => "dashboard:user"
  end.

(** C4: a login with the stored email of a user and a wrong password, or
    on an inactive account, is refused: nothing changes (no session, no
    write), the form is shown again (or an already logged-in visitor is
    sent to the router).  With the right password on an active account
    from an anonymous visitor and no [next], the session is bound to the
    user and the response redirects to the router, which sends the user
    to the dashboard of their role (ADMIN: admin, STAFF: staff, USER:
    user). *)
Theorem login_outcomes (u : User) (req : Request) (w : World) :
  In u (db w) -> NoDup (map email (db w)) -> NoDup (map pk (db w)) ->
  Forms.email_field (qd_get (POST req) "email") = Some (email u) ->
  ((forall p, Forms.char_field true None (qd_get (POST req) "password") = Some p ->
      check_password u p = false) ->
   login_view req w =
   (if is_authenticated req then Redirect "dashboard:router" else Render "accounts/login.html", w)) /\
  (is_active u = false ->
   login_view req w =
   (if is_authenticated req then Redirect "dashboard:router" else Render "accounts/login.html", w)) /\
  (req_user req = None -> method req = "POST" -> is_active u = true ->
   Forms.char_field true None (qd_get (POST req) "password") = Some (password u) ->
   (qd_get (GET req) "next" = None \/ qd_get (GET req) "next" = Some "") ->
   exists w', login_view req w = (Redirect "dashboard:router", w') /\
     session w' = Some (pk u) /\
     exists u', session_user w' = Some u' /\ pk u' = pk u /\
       forall req2, req_user req2 = Some u' ->
         fst (dashboard_router req2 w') = Redirect (role_dashboard (role u))).
Proof.
  intros Hin Hnd Hndpk He.
  assert (Hdeny : (forall p, Forms.char_field true None (qd_get (POST req) "password") = Some p ->
                     check_password u p && is_active u = false) ->
                  login_view req w =
                  (if is_authenticated req then Redirect "dashboard:router"
                   else Render "accounts/login.html", w)).
  { intros Hp. unfold login_view, anonymous_required.
    destruct (is_authenticated req); [reflexivity|].
    unfold login_view_impl. destruct (String.eqb (method req) "POST"); [|reflexivity].
    unfold login_form_clean. rewrite He.
    destruct (Forms.char_field true None (qd_get (POST req) "password")) as [p|] eqn:Ep;
      [|reflexivity].
    rewrite authenticate_unique by assumption. rewrite (Hp p eq_refl). reflexivity. }
  split; [|split].
  - intros Hp. apply Hdeny. intros p Ep. rewrite (Hp p Ep). reflexivity.
  - intros Hia. apply Hdeny. intros p _. rewrite Hia. apply andb_false_r.
  - intros Hanon Hpost Hact Hpw Hnext.
    unfold login_view, anonymous_required, is_authenticated. rewrite Hanon.
    unfold login_view_impl. rewrite Hpost. simpl.
    unfold login_form_clean. rewrite He, Hpw.
    rewrite authenticate_unique by assumption.
    unfold check_password. rewrite String.eqb_refl, Hact. simpl.
    set (w1 := auth_login u (now req) w).
    set (w2 := if Forms.checkbox_field (qd_get (POST req) "remember_me") then w1
               else set_expiry_0 w1).
    set (w3 := add_msg Success ("Welcome back, " ++ get_short_name u ++ "!") w2).
    exists w3.
    assert (Hs : session w3 = Some (pk u)).
    { unfold w3, w2. destruct (Forms.checkbox_field _); reflexivity. }
    assert (Hdb : db w3 = save_last_login u (now req) (db w)).
    { unfold w3, w2. destruct (Forms.checkbox_field _); reflexivity. }
    split.
    + rewrite Hact. simpl. destruct Hnext as [Hn|Hn]; rewrite Hn; reflexivity.
    + split; [exact Hs|].
      exists (set_last_login (now req) u).
      split; [|split; [reflexivity|]].
      * unfold session_user. rewrite Hs, Hdb.
        rewrite (find_pk_save_last_login u u) by (apply find_pk_unique; assumption).
        simpl. rewrite Hact. reflexivity.
      * intros req2 Hr2. unfold dashboard_router, login_required, is_authenticated.
        rewrite Hr2. unfold dashboard_router_impl, user_role. rewrite Hr2. simpl.
        destruct (role u); reflexivity.
Qed.

Ltac nodup_strings :=
  repeat constructor; simpl; intros H; repeat destruct H as [H|H]; try discriminate; auto.

Lemma login_outcomes_witness :
  login_view (Sample.req "/accounts/login/" "POST" None []
                [("email", "alice@example.com"); ("password", "wrong-one")] 500) Sample.w0 =
    (Render "accounts/login.html", Sample.w0) /\
  exists w', login_view (Sample.req "/accounts/login/" "POST" None []
                [("email", "alice@example.com"); ("password", "alicepass")] 500) Sample.w0 =
    (Redirect "dashboard:router", w') /\ session w' = Some 3.
Proof.
  assert (Hin : In Sample.alice (db Sample.w0)) by (simpl; auto).
  assert (Hnd : NoDup (map email (db Sample.w0))) by nodup_strings.
  assert (Hndpk : NoDup (map pk (db Sample.w0))) by nodup_strings.
  split.
  - apply (proj1 (login_outcomes Sample.alice
             (Sample.req "/accounts/login/" "POST" None []
                [("email", "alice@example.com"); ("password", "wrong-one")] 500)
             Sample.w0 Hin Hnd Hndpk eq_refl)).
    intros p Hp. vm_compute in Hp. injection Hp as <-. reflexivity.
  - destruct (proj2 (proj2 (login_outcomes Sample.alice
             (Sample.req "/accounts/login/" "POST" None []
                [("email", "alice@example.com"); ("password", "alicepass")] 500)
             Sample.w0 Hin Hnd Hndpk eq_refl)) eq_refl eq_refl eq_refl eq_refl (or_introl eq_refl))
      as (w' & Hl & Hs & _).
    exists w'. split; assumption.
Defined.

(** ** Email uniqueness on creation *)

Lemma email_taken_none_in (e : string) (l : list User) :
  Forms.email_taken None e l = true <-> In e (map email l).
Proof.
  unfold Forms.email_taken. rewrite existsb_exists. split.
  - intros (v & Hv & Heq). rewrite andb_true_r in Heq. apply String.eqb_eq in Heq.
    rewrite <- Heq. apply in_map. exact Hv.
  - intros Hin. apply in_map_iff in Hin. destruct Hin as (v & <- & Hv).
    exists v. split; [exact Hv|]. rewrite String.eqb_refl. reflexivity.
Qed.

Lemma creation_form_clean_email (post : QueryDict) (l : list User) (cd : CreationData) :
  creation_form_clean post l = Some cd -> ~ In (cd_email cd) (map email l).
Proof.
  unfold creation_form_clean.
  repeat match goal with
         | |- context [match ?e with Some _ => _ | None => _ end] =>
             destruct e eqn:?; [|discriminate]
         end.
  destruct (negb _); [discriminate|].
  destruct (Nat.ltb _ _); [discriminate|].
  destruct (Forms.email_taken None _ l) eqn:Et; [discriminate|].
  intros H. injection H as <-. simpl. rewrite <- email_taken_none_in. congruence.
Qed.



(** ** The last-login throttle *)

Definition MINUTE : Z := 60 * 1000000.

Definition stale_or_absent (now_ : Z) (u : User) : Prop :=
  last_login u = None \/ exists t, last_login u = Some t /\ now_ - t > Middleware.HOUR.

Lemma last_login_update_stale (now_ : Z) (u : User) :
  stale_or_absent now_ u -> Middleware.last_login_update now_ u = Some now_.
Proof.
  unfold Middleware.last_login_update. intros [H|(t & H & Ht)]; rewrite H; [reflexivity|].
  replace (Middleware.HOUR <? now_ - t) with true by (symmetry; apply Z.ltb_lt; lia).
  reflexivity.
Qed.

Lemma last_login_update_recent (now_ t : Z) (u : User) :
  last_login u = Some t -> now_ - t <= Middleware.HOUR ->
  Middleware.last_login_update now_ u = None.
Proof.
  unfold Middleware.last_login_update. intros H Ht. rewrite H.
  replace (Middleware.HOUR <? now_ - t) with false by (symmetry; apply Z.ltb_ge; lia).
  reflexivity.
Qed.

(** C6: on an authenticated request the user's [last_login] is set to
    the current time when it is absent or more than one hour old, and
    otherwise the table is left unchanged.  Hence, after a request that
    recorded its time, a request 10 minutes later leaves the timestamp at
    that value, and one 61 minutes later records its own time. *)
Theorem last_login_throttle (req : Request) (w : World) (u : User) :
  req_user req = Some u -> find_pk (pk u) (db w) = Some u ->
  let w' := Middleware.update_last_login req w in
  (stale_or_absent (now req) u ->
     find_pk (pk u) (db w') = Some (set_last_login (now req) u)) /\
  (forall t, last_login u = Some t -> now req - t <= Middleware.HOUR -> db w' = db w) /\
  (stale_or_absent (now req) u ->
     forall req2, req_user req2 = find_pk (pk u) (db w') ->
       now req2 = now req + 10 * MINUTE ->
       db (Middleware.update_last_login req2 w') = db w' /\
       option_map last_login (find_pk (pk u) (db w')) = Some (Some (now req))) /\
  (stale_or_absent (now req) u ->
     forall req2, req_user req2 = find_pk (pk u) (db w') ->
       now req2 = now req + 61 * MINUTE ->
       option_map last_login (find_pk (pk u) (db (Middleware.update_last_login req2 w'))) =
         Some (Some (now req2))).
Proof.
  intros Hu Hf w'.
  assert (HA : stale_or_absent (now req) u ->
               find_pk (pk u) (db w') = Some (set_last_login (now req) u)).
  { intros Hs. unfold w', Middleware.update_last_login. rewrite Hu.
    rewrite last_login_update_stale by exact Hs. simpl.
    apply find_pk_save_last_login. exact Hf. }
  split; [exact HA|split; [|split]].
  - intros t Ht Hle. unfold w', Middleware.update_last_login. rewrite Hu.
    rewrite (last_login_update_recent _ t) by assumption. reflexivity.
  - intros Hs req2 Hr2 Hn2. rewrite (HA Hs) in Hr2 |- *. split; [|reflexivity].
    unfold Middleware.update_last_login. rewrite Hr2.
    rewrite (last_login_update_recent _ (now req)); [reflexivity | reflexivity |].
    rewrite Hn2. unfold MINUTE, Middleware.HOUR. lia.
  - intros Hs req2 Hr2 Hn2. rewrite (HA Hs) in Hr2.
    unfold Middleware.update_last_login. rewrite Hr2.
    rewrite last_login_update_stale.
    + simpl. rewrite (find_pk_save_last_login (set_last_login (now req) u)
                        (set_last_login (now req) u)); [reflexivity|].
      simpl. exact (HA Hs).
    + right. exists (now req). split; [reflexivity|].
      rewrite Hn2. unfold MINUTE, Middleware.HOUR. lia.
Qed.

Lemma last_login_throttle_witness :
  option_map last_login
    (find_pk (pk Sample.alice)
       (db (Middleware.update_last_login
              (Sample.req "/dashboard/" "GET" (Some Sample.alice) [] [] 5000) Sample.w0)))
  = Some (Some 5000).
Proof.
  rewrite (proj1 (last_login_throttle
                    (Sample.req "/dashboard/" "GET" (Some Sample.alice) [] [] 5000)
                    Sample.w0 Sample.alice eq_refl eq_refl) (or_introl eq_refl)).
  reflexivity.
Defined.

(** ** The admin user list *)

(** C7 (fails on the code): the sort key is passed to [order_by]
    unchecked, so an ADMIN's request with [?ordering=bogus] raises
    [FieldError] (a server error), while the same request without it
    renders the first page, newest-joined first. *)
Theorem user_list_bad_ordering_errors :
  fst (user_list (Sample.req "/accounts/users/" "GET" (Some Sample.admin)
                    [("ordering", "bogus")] [] 0) Sample.w0) =
    ServerError "FieldError: Cannot resolve keyword 'bogus' into field." /\
  (exists pg, fst (user_list (Sample.req "/accounts/users/" "GET" (Some Sample.admin) [] [] 0)
                     Sample.w0) = RenderUserList pg 3 3 0 /\
              pg_items pg = [Sample.alice; Sample.staff; Sample.admin]).
Proof.
  split; [vm_compute; reflexivity|].
  eexists. vm_compute. split; reflexivity.
Qed.

Lemma sort_perm (le : User -> User -> bool) (l : list User) :
  Permutation (QS.sort le l) l.
Proof.
  assert (Hins : forall x l', Permutation (QS.insert le x l') (x :: l')).
  { intros x l'. induction l' as [|y l' IH]; simpl; [reflexivity|].
    destruct (le x y); [reflexivity|].
    rewrite IH. apply perm_swap. }
  induction l as [|x l IH]; simpl; [reflexivity|].
  rewrite Hins, IH. reflexivity.
Qed.

Lemma search_matches_empty (u : User) : search_matches "" u = true.
Proof.
  unfold search_matches, QS.icontains. simpl.
  destruct (Py.lower (email u)); reflexivity.
Qed.

Lemma order_by_default (l : list User) :
  QS.order_by "-date_joined" l =
    QS.Ok (QS.sort (fun x y => QS.lex_leb [date_joined y] [date_joined x]) l).
Proof. reflexivity. Qed.

Lemma filter_search_empty (l : list User) : filter (search_matches "") l = l.
Proof.
  induction l as [|x l IH]; simpl; [reflexivity|].
  rewrite search_matches_empty, IH. reflexivity.
Qed.

Lemma user_list_queryset_search (q : QueryDict) (s : string) (l : list User) :
  qd_get_default q "search" "" = s -> qd_get q "role" = None ->
  qd_get q "status" = None -> qd_get q "ordering" = None ->
  user_list_queryset q l =
    QS.Ok (QS.sort (fun x y => QS.lex_leb [date_joined y] [date_joined x])
             (filter (search_matches s) l)).
Proof.
  intros Hs Hr Hst Ho. unfold user_list_queryset, qd_get_default in *.
  rewrite Hr, Hst, Ho. cbv zeta. rewrite Hs. simpl.
  rewrite order_by_default.
  destruct (String.eqb s "") eqn:E; [|reflexivity].
  apply String.eqb_eq in E. rewrite E, filter_search_empty. reflexivity.
Qed.

(** C8: with only a search term given, the list view of an ADMIN
    renders (no error) a paginated result whose underlying list is
    exactly the users for which the term is a case-insensitive substring
    of the email, first name, last name or department; an empty result
    gives an empty page. *)
Theorem user_search_exact (req : Request) (w : World) (a : User) (s : string) :
  req_user req = Some a -> role a = ADMIN ->
  qd_get_default (GET req) "search" "" = s -> qd_get (GET req) "role" = None ->
  qd_get (GET req) "status" = None -> qd_get (GET req) "ordering" = None ->
  exists pg n1 n2 n3,
    user_list req w = (RenderUserList pg n1 n2 n3, w) /\
    Permutation (pg_object_list pg) (filter (search_matches s) (db w)) /\
    (forall u, In u (pg_object_list pg) <->
       In u (db w) /\
       (QS.icontains (email u) s || QS.icontains (first_name u) s ||
        QS.icontains (last_name u) s || QS.icontains (department u) s) = true) /\
    (filter (search_matches s) (db w) = [] -> pg_items pg = []).
Proof.
  intros Hu Hr Hs Hro Hst Ho.
  unfold user_list. rewrite admin_required_unfold, Hu, Hr.
  unfold user_list_impl. rewrite (user_list_queryset_search _ s) by assumption.
  set (sorted := QS.sort _ (filter (search_matches s) (db w))).
  eexists _, _, _, _. split; [reflexivity|].
  assert (Hp : Permutation sorted (filter (search_matches s) (db w))) by apply sort_perm.
  simpl. split; [exact Hp|split].
  - intros u. transitivity (In u (filter (search_matches s) (db w))).
    + split; apply Permutation_in; [exact Hp | symmetry; exact Hp].
    + rewrite filter_In. reflexivity.
  - intros Hnil. rewrite Hnil in Hp. symmetry in Hp. apply Permutation_nil in Hp.
    rewrite Hp. unfold QS.get_page. simpl.
    rewrite skipn_nil, firstn_nil. reflexivity.
Qed.

Lemma user_search_exact_witness :
  exists pg n1 n2 n3,
    user_list (Sample.req "/accounts/users/" "GET" (Some Sample.admin) [("search", "ALI")] [] 0)
      Sample.w0 = (RenderUserList pg n1 n2 n3, Sample.w0) /\
    Permutation (pg_object_list pg) (filter (search_matches "ALI") (db Sample.w0)).
Proof.
  destruct (user_search_exact
              (Sample.req "/accounts/users/" "GET" (Some Sample.admin) [("search", "ALI")] [] 0)
              Sample.w0 Sample.admin "ALI" eq_refl eq_refl eq_refl eq_refl eq_refl eq_refl)
    as (pg & n1 & n2 & n3 & H1 & H2 & _).
  exists pg, n1, n2, n3. split; assumption.
Defined.

(** ** Profile self-update *)

(** The fields of a row outside the profile and [updated_at]. *)
Definition same_identity_and_status (u v : User) : Prop :=
  pk u = pk v /\ email u = email v /\ password u = password v /\
  role u = role v /\ is_active u = is_active v /\ is_staff u = is_staff v /\
  is_superuser u = is_superuser v /\ date_joined u = date_joined v /\
  last_login u = last_login v.

(** C9 (as stated it fails): a saved profile update also rewrites the
    row's [updated_at] (an [auto_now] field), which is not a profile
    field, even when every profile value is resubmitted unchanged; role
    and active flag stay as they were although the payload names them. *)
Lemma profile_update_touches_updated_at :
  let r := profile_update
             (Sample.req "/accounts/profile/edit/" "POST" (Some Sample.alice) []
                [("first_name", "Alice"); ("last_name", "Doe"); ("department", "Engineering");
                 ("job_title", "Developer"); ("role", "ADMIN"); ("is_active", "")] 900)
             Sample.w0 in
  fst r = Redirect "accounts:profile" /\
  option_map (fun u => (first_name u, last_name u, phone u, department u, job_title u,
                        bio u, profile_picture u, role u, is_active u))
    (find_pk 3 (db (snd r))) =
  option_map (fun u => (first_name u, last_name u, phone u, department u, job_title u,
                        bio u, profile_picture u, role u, is_active u))
    (find_pk 3 (db Sample.w0)) /\
  option_map updated_at (find_pk 3 (db Sample.w0)) = Some 300 /\
  option_map updated_at (find_pk 3 (db (snd r))) = Some 900.
Proof. vm_compute. repeat split. Qed.

(** C9 (amended): the profile self-update either leaves the table as it
    is or rewrites the acting user's own row only, changing nothing but
    the profile fields (first/last name, phone, department, job title,
    bio, profile picture) and the automatic last-modified timestamp; the
    role, the active flag and the other identity fields keep their values
    whatever the payload contains. *)
Theorem profile_update_frame (req : Request) (w : World) (me : User) :
  req_user req = Some me ->
  db (snd (profile_update req w)) = db w \/
  exists u', db (snd (profile_update req w)) = save_row u' (db w) /\
    same_identity_and_status me u' /\ updated_at u' = now req.
Proof.
  intros Hu. unfold profile_update, login_required, is_authenticated. rewrite Hu.
  unfold profile_update_impl. rewrite Hu.
  destruct (String.eqb (method req) "POST"); [|left; reflexivity].
  destruct (user_update_form (POST req) (FILES req) me) as [u|] eqn:Ef; [|left; reflexivity].
  right. exists (touch (now req) u). split; [reflexivity|].
  unfold user_update_form in Ef.
  repeat match type of Ef with
         | match ?e with Some _ => _ | None => _ end = _ =>
             destruct e; [|discriminate]
         end.
  injection Ef as <-. split; [|reflexivity].
  unfold same_identity_and_status. simpl. repeat split.
Qed.

Lemma profile_update_frame_witness :
  exists u', db (snd (profile_update
             (Sample.req "/accounts/profile/edit/" "POST" (Some Sample.alice) []
                [("first_name", "Alicia"); ("last_name", "Doe"); ("department", "Engineering");
                 ("job_title", "Developer"); ("role", "ADMIN"); ("is_active", "")] 900)
             Sample.w0))
    = save_row u' (db Sample.w0) /\ same_identity_and_status Sample.alice u' /\ updated_at u' = 900.
Proof.
  destruct (profile_update_frame
              (Sample.req "/accounts/profile/edit/" "POST" (Some Sample.alice) []
                 [("first_name", "Alicia"); ("last_name", "Doe"); ("department", "Engineering");
                  ("job_title", "Developer"); ("role", "ADMIN"); ("is_active", "")] 900)
              Sample.w0 Sample.alice eq_refl) as [H|H].
  - vm_compute in H. congruence.
  - exact H.
Defined.

(** ** Toggling the active flag *)

(** Every field but [is_active] and [updated_at] agrees. *)
Definition agrees_except_status (u v : User) : Prop :=
  pk u = pk v /\ email u = email v /\ password u = password v /\
  first_name u = first_name v /\ last_name u = last_name v /\ role u = role v /\
  is_staff u = is_staff v /\ is_superuser u = is_superuser v /\ phone u = phone v /\
  department u = department v /\ job_title u = job_title v /\
  profile_picture u = profile_picture v /\ bio u = bio v /\
  date_joined u = date_joined v /\ last_login u = last_login v.

Lemma toggle_other (a t : User) (k : Z) (req : Request) (w : World) :
  req_user req = Some a -> role a = ADMIN -> method req = "POST" -> k <> pk a ->
  find_pk k (db w) = Some t ->
  user_toggle_status k req w =
    (Redirect "accounts:user_list",
     add_msg Success ("User " ++ email t ++ " has been " ++
                      (if negb (is_active t) then "activated" else "deactivated") ++ ".")
       (set_db (save_row (touch (now req) (set_active (negb (is_active t)) t)) (db w)) w)).
Proof.
  intros Hu Hr Hm Hk Hf. unfold user_toggle_status. reach_view Hu Hr Hm.
  unfold user_toggle_status_impl, get_object_or_404. rewrite Hf.
  unfold same_user. rewrite Hu.
  replace (Z.eqb (pk t) (pk a)) with false
    by (symmetry; apply Z.eqb_neq; rewrite (find_pk_pk _ _ _ Hf); exact Hk).
  reflexivity.
Qed.

(** C10: an ADMIN's toggle-status POST on another existing user flips
    that row's active flag and changes none of its identity, role or
    profile fields; a second such request on the same row restores the
    original active flag. *)
Theorem toggle_status_involution (a t : User) (k : Z) (req req2 : Request) (w : World) :
  req_user req = Some a -> role a = ADMIN -> method req = "POST" -> k <> pk a ->
  find_pk k (db w) = Some t ->
  let w1 := snd (user_toggle_status k req w) in
  fst (user_toggle_status k req w) = Redirect "accounts:user_list" /\
  (exists t1, db w1 = save_row t1 (db w) /\ find_pk k (db w1) = Some t1 /\
     is_active t1 = negb (is_active t) /\ agrees_except_status t t1) /\
  (req_user req2 = Some a -> method req2 = "POST" ->
   exists t2, find_pk k (db (snd (user_toggle_status k req2 w1))) = Some t2 /\
     is_active t2 = is_active t /\ agrees_except_status t t2).
Proof.
  intros Hu Hr Hm Hk Hf w1.
  set (t1 := touch (now req) (set_active (negb (is_active t)) t)).
  assert (Hpk : pk t = k) by (eapply find_pk_pk; eauto).
  assert (Hw1 : db w1 = save_row t1 (db w)).
  { unfold w1. rewrite (toggle_other a t k req w) by assumption. reflexivity. }
  assert (Hf1 : find_pk k (db w1) = Some t1).
  { rewrite Hw1. apply find_pk_save_row; [exact Hpk | congruence]. }
  split; [rewrite (toggle_other a t k req w) by assumption; reflexivity|split].
  - exists t1. split; [exact Hw1|split; [exact Hf1|split; [reflexivity|]]].
    unfold agrees_except_status; simpl; repeat split.
  - intros Hu2 Hm2.
    exists (touch (now req2) (set_active (negb (is_active t1)) t1)).
    rewrite (toggle_other a t1 k req2 w1) by assumption. simpl.
    split; [apply find_pk_save_row; [simpl; exact Hpk | congruence]|].
    split; [simpl; apply negb_involutive|].
    unfold agrees_except_status; simpl; repeat split.
Qed.

Lemma toggle_status_involution_witness :
  fst (user_toggle_status 3
         (Sample.req "/accounts/users/3/toggle-status/" "POST" (Some Sample.admin) [] [] 900)
         Sample.w0) = Redirect "accounts:user_list".
Proof.
  exact (proj1 (toggle_status_involution Sample.admin Sample.alice 3
                  (Sample.req "/accounts/users/3/toggle-status/" "POST" (Some Sample.admin) [] [] 900)
                  (Sample.req "/accounts/users/3/toggle-status/" "POST" (Some Sample.admin) [] [] 950)
                  Sample.w0 eq_refl eq_refl eq_refl ltac:(discriminate) eq_refl)).
Defined.

(** * Further properties of the code *)

(** ** The role-based middleware on the served URLs *)

Lemma split_nonnil (c : ascii) (s : string) : Py.split c s <> [].
Proof.
  destruct s as [|d r]; simpl; [discriminate|].
  destruct (Ascii.eqb c d); [discriminate|].
  destruct (Py.split c r); discriminate.
Qed.

Lemma startswith_app (s a b : string) :
  Py.startswith s (a ++ b) = true -> Py.startswith s a = true.
Proof.
  revert s. induction a as [|c a IH]; intros s.
  { intros _. destruct s; reflexivity. }
  destruct s as [|d s]; [discriminate|]. simpl.
  intros H. apply andb_prop in H. destruct H as [H1 H2].
  rewrite H1. simpl. apply IH. exact H2.
Qed.

Lemma split_slash_segment (w p : string) :
  forallb (fun c => negb (Ascii.eqb "/" c)) (list_ascii_of_string w) = true ->
  Py.startswith p (w ++ "/") = true ->
  exists tail, Py.split "/" p = w :: tail /\ tail <> [].
Proof.
  revert p. induction w as [|c w IH]; intros p Hw Hp; simpl in *.
  - destruct p as [|d p]; [discriminate|].
    apply andb_prop in Hp. destruct Hp as [Hd _].
    apply Ascii.eqb_eq in Hd. subst d. simpl.
    exists (Py.split "/" p). split; [reflexivity|apply split_nonnil].
  - apply andb_prop in Hw. destruct Hw as [Hc Hw].
    destruct p as [|d p]; [discriminate|].
    apply andb_prop in Hp. destruct Hp as [Hd Hp].
    apply Ascii.eqb_eq in Hd. subst d.
    destruct (IH p Hw Hp) as (tail & Hs & Ht).
    exists tail. split; [|exact Ht]. simpl.
    apply negb_true_iff in Hc. rewrite Hc, Hs. reflexivity.
Qed.

Lemma removelast_cons {A} (x : A) (l : list A) :
  l <> [] -> removelast (x :: l) = x :: removelast l.
Proof. destruct l; [congruence|reflexivity]. Qed.

Lemma resolve_segment_none (w p : string) :
  forallb (fun c => negb (Ascii.eqb "/" c)) (list_ascii_of_string w) = true ->
  String.eqb "accounts" w = false -> String.eqb "dashboard" w = false ->
  Py.startswith p ("/" ++ w ++ "/") = true -> Urls.resolve p = None.
Proof.
  intros Hw Ha Hd Hp.
  destruct p as [|d p]; [discriminate|].
  change (Py.startswith (String d p) (String "/" (w ++ "/")) = true) in Hp.
  cbn [Py.startswith] in Hp. apply andb_prop in Hp. destruct Hp as [Hs Hp].
  apply Ascii.eqb_eq in Hs. subst d.
  destruct (split_slash_segment w p Hw Hp) as (tail & Hsp & Ht).
  unfold Urls.resolve.
  replace (Py.split "/" (String "/" p)) with ("" :: Py.split "/" p) by reflexivity.
  rewrite Hsp.
  rewrite (removelast_cons w tail Ht).
  destruct tail as [|t tail]; [congruence|].
  destruct (last (w :: t :: tail) "x"); [|reflexivity].
  unfold Urls.urlpatterns. cbn [find Urls.match_segs]. rewrite Ha, Hd. reflexivity.
Qed.

Lemma admin_prefix_unserved (p : string) :
  existsb (Py.startswith p) Middleware.ADMIN_ONLY_PATTERNS = true -> Urls.resolve p = None.
Proof.
  unfold Middleware.ADMIN_ONLY_PATTERNS. simpl.
  intros H. repeat (apply orb_prop in H; destruct H as [H|H]); try discriminate.
  - apply (resolve_segment_none "users"); auto.
  - apply (resolve_segment_none "users"); auto.
    apply (startswith_app _ _ "create/"). exact H.
  - apply (resolve_segment_none "users"); auto.
    apply (startswith_app _ _ "delete/"). exact H.
  - apply (resolve_segment_none "analytics"); auto.
Qed.

Lemma staff_prefix_unserved (p : string) :
  existsb (Py.startswith p) Middleware.STAFF_PATTERNS = true -> Urls.resolve p = None.
Proof.
  unfold Middleware.STAFF_PATTERNS. simpl. rewrite orb_false_r.
  apply (resolve_segment_none "staff"); reflexivity.
Qed.

Lemma middleware_inert_on_routes (p : string) (ru : option User) :
  Urls.resolve p <> None -> Middleware.role_based_access p ru = Middleware.PassThrough.
Proof.
  intros Hr. unfold Middleware.role_based_access.
  destruct (existsb (Py.startswith p) Middleware.PUBLIC_PATTERNS); [reflexivity|].
  destruct ru as [u|]; [|reflexivity].
  destruct (existsb (Py.startswith p) Middleware.ADMIN_ONLY_PATTERNS) eqn:Ea.
  { exfalso. apply Hr. apply admin_prefix_unserved. exact Ea. }
  destruct (existsb (Py.startswith p) Middleware.STAFF_PATTERNS) eqn:Es.
  { exfalso. apply Hr. apply staff_prefix_unserved. exact Es. }
  reflexivity.
Qed.

Lemma public_prefix_pass_through (p q : string) (ru : option User) :
  In q Middleware.PUBLIC_PATTERNS -> Py.startswith p q = true ->
  Middleware.role_based_access p ru = Middleware.PassThrough.
Proof.
  intros Hq Hp. unfold Middleware.role_based_access.
  replace (existsb (Py.startswith p) Middleware.PUBLIC_PATTERNS) with true;
    [reflexivity|].
  symmetry. apply existsb_exists. exists q. auto.
Qed.

(** On every URL the project serves (its own routes, the admin site, and
    the DEBUG file routes when [MEDIA_URL] and [STATIC_URL] are
    ['/media/'] and ['/static/']), [RoleBasedAccessMiddleware] lets the
    request through, whoever the user is: none of its admin-only or staff
    prefixes is the beginning of a served path. *)
Theorem middleware_inert_on_served_urls (static_urls : list string) (p : string)
    (ru : option User) :
  (forall s, In s static_urls -> s = "/static/" \/ s = "/media/") ->
  Urls.served static_urls p = true ->
  Middleware.role_based_access p ru = Middleware.PassThrough.
Proof.
  intros Hs. unfold Urls.served, Urls.DEBUG. rewrite andb_true_l.
  destruct (Urls.resolve p) as [g|] eqn:Er.
  { intros _. apply middleware_inert_on_routes. congruence. }
  cbn [orb]. destruct (Py.startswith p "/admin/") eqn:Ea; cbn [orb].
  { intros _. apply (public_prefix_pass_through p "/admin/"); [simpl; tauto | exact Ea]. }
  intros Hx. apply existsb_exists in Hx. destruct Hx as [s [Hin Hp]].
  apply (public_prefix_pass_through p s); [|exact Hp].
  destruct (Hs s Hin) as [-> | ->]; simpl; tauto.
Qed.

Lemma middleware_inert_on_served_urls_witness :
  Middleware.role_based_access "/dashboard/admin/" (Some Sample.alice) = Middleware.PassThrough /\
  Middleware.role_based_access "/admin/auth/group/" (Some Sample.alice) = Middleware.PassThrough /\
  Middleware.role_based_access "/media/avatars/a.png" (Some Sample.alice) = Middleware.PassThrough.
Proof.
  assert (Hs : forall s, In s ["/static/"; "/media/"] -> s = "/static/" \/ s = "/media/")
    by (simpl; intros s [H|[H|[]]]; auto).
  split; [|split];
    apply (middleware_inert_on_served_urls ["/static/"; "/media/"]); (exact Hs || reflexivity).
Defined.

(** ** Function decorators and class mixins *)

(** For a signed-in user, [staff_required], [role_required([ADMIN, STAFF])]
    and [StaffRequiredMixin] agree on who reaches the view: an ADMIN or a
    STAFF user gets the view's own outcome; a USER is sent to the dashboard
    router with one error message and the table untouched. *)
Theorem staff_guards_agree (v : View) (req : Request) (w : World) (u : User) :
  req_user req = Some u ->
  (role u <> USER ->
     staff_required v req w = v req w /\
     role_required [ADMIN; STAFF] v req w = v req w /\
     StaffRequiredMixin v req w = v req w) /\
  (role u = USER ->
     staff_required v req w = (Redirect "dashboard:router", add_msg Error "Staff access required." w) /\
     role_required [ADMIN; STAFF] v req w =
       (Redirect "dashboard:router", add_msg Error "You do not have permission to access this page." w) /\
     StaffRequiredMixin v req w =
       (Redirect "dashboard:router", add_msg Error "You do not have permission to access this page." w)).
Proof.
  intros Hu.
  unfold staff_required, role_required, StaffRequiredMixin, role_required_mixin,
    login_required, is_authenticated, user_role.
  rewrite Hu. simpl.
  destruct (role u); split; intros H; try congruence; repeat split.
Qed.

Lemma staff_guards_agree_witness :
  (role Sample.staff <> USER ->
     staff_required (fun _ => ret (Render "dashboard/staff_dashboard.html"))
       (Sample.req "/dashboard/staff/" "GET" (Some Sample.staff) [] [] 0) Sample.w0 =
     (Render "dashboard/staff_dashboard.html", Sample.w0) /\ True) /\ True.
Proof.
  destruct (staff_guards_agree (fun _ => ret (Render "dashboard/staff_dashboard.html"))
              (Sample.req "/dashboard/staff/" "GET" (Some Sample.staff) [] [] 0)
              Sample.w0 Sample.staff eq_refl) as [H1 _].
  split; [|exact I]. intros Hr. split; [|exact I]. exact (proj1 (H1 Hr)).
Defined.

(** For a signed-in user, [admin_required] and [AdminRequiredMixin] run the
    view for exactly the same users (the ADMINs); everyone else is sent to
    the dashboard router with one error message and the table untouched. *)
Theorem admin_guards_agree (v : View) (req : Request) (w : World) (u : User) :
  req_user req = Some u ->
  (role u = ADMIN ->
     admin_required v req w = v req w /\ AdminRequiredMixin v req w = v req w) /\
  (role u <> ADMIN ->
     admin_required v req w =
       (Redirect "dashboard:router", add_msg Error "Administrator access required." w) /\
     AdminRequiredMixin v req w =
       (Redirect "dashboard:router", add_msg Error "You do not have permission to access this page." w)).
Proof.
  intros Hu.
  unfold admin_required, AdminRequiredMixin, role_required_mixin,
    login_required, is_authenticated, user_role.
  rewrite Hu. simpl.
  destruct (role u); split; intros H; try congruence; repeat split.
Qed.

Lemma admin_guards_agree_witness :
  (role Sample.staff = ADMIN -> True) /\
  (role Sample.staff <> ADMIN ->
     AdminRequiredMixin (fun _ => ret (Render "x.html"))
       (Sample.req "/dashboard/admin/" "GET" (Some Sample.staff) [] [] 0) Sample.w0 =
     (Redirect "dashboard:router",
      add_msg Error "You do not have permission to access this page." Sample.w0)).
Proof.
  destruct (admin_guards_agree (fun _ => ret (Render "x.html"))
              (Sample.req "/dashboard/admin/" "GET" (Some Sample.staff) [] [] 0)
              Sample.w0 Sample.staff eq_refl) as [_ H2].
  split; [intros _; exact I|]. intros Hr. exact (proj2 (H2 Hr)).
Defined.

(** An anonymous request is sent to the login page by both the decorators
    and the mixins, but only the decorators carry the requested path along
    (as [?next=]); the mixins' redirect drops it. *)
Theorem anonymous_redirect_next (v : View) (req : Request) (w : World) :
  req_user req = None ->
  admin_required v req w = (RedirectToLogin (path req), w) /\
  staff_required v req w = (RedirectToLogin (path req), w) /\
  AdminRequiredMixin v req w = (Redirect "accounts:login", w) /\
  StaffRequiredMixin v req w = (Redirect "accounts:login", w).
Proof.
  intros Hn.
  unfold admin_required, staff_required, AdminRequiredMixin, StaffRequiredMixin,
    role_required_mixin, login_required, is_authenticated.
  rewrite Hn. repeat split.
Qed.

Lemma anonymous_redirect_next_witness :
  AdminRequiredMixin (fun _ => ret (Render "x.html"))
    (Sample.req "/dashboard/admin/" "GET" None [] [] 0) Sample.w0 =
  (Redirect "accounts:login", Sample.w0).
Proof.
  exact (proj1 (proj2 (proj2 (anonymous_redirect_next (fun _ => ret (Render "x.html"))
           (Sample.req "/dashboard/admin/" "GET" None [] [] 0) Sample.w0 eq_refl)))).
Defined.

(** ** Admin site actions *)

Lemma find_pk_map_sel (sel : Z -> bool) (g : User -> User) (k : Z) (l : list User) :
  (forall v, pk (g v) = pk v) ->
  find_pk k (map (fun v => if sel (pk v) then g v else v) l) =
  option_map (fun v => if sel (pk v) then g v else v) (find_pk k l).
Proof.
  intros Hg. induction l as [|v l IH]; [reflexivity|]. simpl.
  destruct (sel (pk v)) eqn:Es; simpl.
  - rewrite Hg. destruct (Z.eqb (pk v) k) eqn:Ek; simpl; [rewrite Es; reflexivity|exact IH].
  - destruct (Z.eqb (pk v) k) eqn:Ek; simpl; [rewrite Es; reflexivity|exact IH].
Qed.

Lemma find_pk_option_map_sel (sel : Z -> bool) (g : User -> User) (k : Z) (l : list User) :
  option_map (fun v => if sel (pk v) then g v else v) (find_pk k l) =
  option_map (fun v => if sel k then g v else v) (find_pk k l).
Proof.
  destruct (find_pk k l) as [v|] eqn:E; [|reflexivity].
  simpl. rewrite (find_pk_pk _ _ _ E). reflexivity.
Qed.

Lemma pk_set_active (b : bool) (v : User) : pk (set_active b v) = pk v.
Proof. reflexivity. Qed.

Lemma pk_set_role (r : Role) (v : User) : pk (AdminActions.set_role r v) = pk v.
Proof. reflexivity. Qed.

Lemma action_find_pk (sel : Z -> bool) (g : User -> User) (k : Z) (l : list User) :
  (forall v, pk (g v) = pk v) ->
  find_pk k (map (fun v => if sel (pk v) then g v else v) l) =
  if sel k then option_map g (find_pk k l) else find_pk k l.
Proof.
  intros Hg. rewrite find_pk_map_sel by exact Hg.
  rewrite find_pk_option_map_sel.
  destruct (sel k); destruct (find_pk k l); reflexivity.
Qed.

Lemma action_find_pk_gen (s : User -> bool) (sel : Z -> bool) (g : User -> User)
  (k : Z) (l : list User) :
  (forall v, s v = sel (pk v)) -> (forall v, pk (g v) = pk v) ->
  find_pk k (map (fun v => if s v then g v else v) l) =
  if sel k then option_map g (find_pk k l) else find_pk k l.
Proof.
  intros Hs Hg. rewrite <- (action_find_pk sel g k l Hg). f_equal.
  apply map_ext. intros v. rewrite Hs. reflexivity.
Qed.

Lemma existsb_eqb_In (k : Z) (pks : list Z) : existsb (Z.eqb k) pks = true <-> In k pks.
Proof.
  rewrite existsb_exists. split.
  - intros (x & Hx & E). apply Z.eqb_eq in E. subst. exact Hx.
  - intros H. exists k. split; [exact H|apply Z.eqb_refl].
Qed.

(** The admin actions [deactivate_users] and [make_regular_user] leave the
    acting user's own row as it was, even when it is ticked; every other
    ticked row is deactivated (resp. set to the USER role) and every
    unticked row is left as it was. *)
Theorem bulk_actions_spare_self (me : User) (pks : list Z) (w : World) (k : Z) :
  let d1 := db (snd (AdminActions.deactivate_users me pks w)) in
  let d2 := db (snd (AdminActions.make_regular_user me pks w)) in
  (k = pk me \/ ~ In k pks ->
     find_pk k d1 = find_pk k (db w) /\ find_pk k d2 = find_pk k (db w)) /\
  (k <> pk me -> In k pks ->
     find_pk k d1 = option_map (set_active false) (find_pk k (db w)) /\
     find_pk k d2 = option_map (AdminActions.set_role USER) (find_pk k (db w))).
Proof.
  cbv zeta. unfold AdminActions.deactivate_users, AdminActions.make_regular_user,
    AdminActions.queryset_update. simpl.
  rewrite !(action_find_pk_gen _ (fun k => existsb (Z.eqb k) pks && negb (Z.eqb k (pk me))))
    by (intros; reflexivity).
  split.
  - intros [Hk|Hk].
    + subst k. rewrite Z.eqb_refl, andb_false_r. split; reflexivity.
    + destruct (existsb (Z.eqb k) pks) eqn:E; [apply existsb_eqb_In in E; contradiction|].
      split; reflexivity.
  - intros Hk Hin. apply existsb_eqb_In in Hin. rewrite Hin.
    apply Z.eqb_neq in Hk. rewrite Hk. split; reflexivity.
Qed.

(** [activate_users] and [make_staff] exclude nobody: when the acting
    user's own row is ticked, [make_staff] changes their own role to STAFF
    (an ADMIN can demote themself through the admin site). Ticked rows are
    updated and the others left as they were. *)
Theorem bulk_actions_include_self (me : User) (pks : list Z) (w : World) (k : Z) :
  let d1 := db (snd (AdminActions.activate_users me pks w)) in
  let d2 := db (snd (AdminActions.make_staff me pks w)) in
  (In k pks ->
     find_pk k d1 = option_map (set_active true) (find_pk k (db w)) /\
     find_pk k d2 = option_map (AdminActions.set_role STAFF) (find_pk k (db w))) /\
  (~ In k pks -> find_pk k d1 = find_pk k (db w) /\ find_pk k d2 = find_pk k (db w)).
Proof.
  cbv zeta. unfold AdminActions.activate_users, AdminActions.make_staff,
    AdminActions.queryset_update. simpl.
  rewrite !(action_find_pk_gen _ (fun k => existsb (Z.eqb k) pks)) by (intros; reflexivity).
  split.
  - intros Hin. apply existsb_eqb_In in Hin. rewrite Hin. split; reflexivity.
  - intros Hk. destruct (existsb (Z.eqb k) pks) eqn:E;
      [apply existsb_eqb_In in E; contradiction|split; reflexivity].
Qed.

(** The four admin actions write through [queryset.update], which bypasses
    [save()]: no row's primary key, email, password or [updated_at] changes,
    and the rows keep their number and order. *)
Theorem bulk_actions_keep_keys (me : User) (pks : list Z) (w : World) :
  let key := fun v => (pk v, email v, password v, updated_at v) in
  map key (db (snd (AdminActions.activate_users me pks w))) = map key (db w) /\
  map key (db (snd (AdminActions.deactivate_users me pks w))) = map key (db w) /\
  map key (db (snd (AdminActions.make_staff me pks w))) = map key (db w) /\
  map key (db (snd (AdminActions.make_regular_user me pks w))) = map key (db w).
Proof.
  cbv zeta. unfold AdminActions.activate_users, AdminActions.deactivate_users,
    AdminActions.make_staff, AdminActions.make_regular_user,
    AdminActions.queryset_update. simpl.
  rewrite !map_map.
  repeat split; apply map_ext; intros v;
    match goal with |- context [if ?c then _ else _] => destruct c end; reflexivity.
Qed.

(** ** Creating a user from the admin panel *)

Lemma fold_max_ge (l : list User) (a : Z) :
  a <= fold_left (fun m v => Z.max m (pk v)) l a /\
  (forall v, In v l -> pk v <= fold_left (fun m v => Z.max m (pk v)) l a).
Proof.
  revert a. induction l as [|x l IH]; intros a; simpl.
  - split; [lia|tauto].
  - destruct (IH (Z.max a (pk x))) as [H1 H2]. split; [lia|].
    intros v [<-|Hv]; [lia|auto].
Qed.

Lemma next_pk_fresh (l : list User) (v : User) : In v l -> pk v < next_pk l.
Proof.
  intros Hv. unfold next_pk. destruct (fold_max_ge l 0) as [_ H]. specialize (H v Hv). lia.
Qed.

Lemma find_pk_none_lt (k : Z) (l : list User) :
  (forall v, In v l -> pk v < k) -> find_pk k l = None.
Proof.
  induction l as [|v l IH]; intros H; [reflexivity|]. unfold find_pk; simpl.
  destruct (Z.eqb (pk v) k) eqn:E.
  - apply Z.eqb_eq in E. specialize (H v (or_introl eq_refl)). lia.
  - apply IH. intros x Hx. apply H. right. exact Hx.
Qed.

Lemma find_pk_app (k : Z) (l m : list User) :
  find_pk k (l ++ m) = match find_pk k l with Some v => Some v | None => find_pk k m end.
Proof.
  induction l as [|v l IH]; [reflexivity|]. unfold find_pk in *; simpl.
  destruct (Z.eqb (pk v) k); [reflexivity|exact IH].
Qed.

Lemma creation_form_clean_fields (post : QueryDict) (l : list User) (cd : CreationData) :
  creation_form_clean post l = Some cd ->
  Forms.email_field (qd_get post "email") = Some (cd_email cd) /\
  Forms.role_field (qd_get post "role") = Some (cd_role cd) /\
  Forms.checkbox_field (qd_get post "is_active") = cd_is_active cd /\
  Forms.char_field true None (qd_get post "password1") = Some (cd_password1 cd) /\
  Forms.char_field true None (qd_get post "password2") = Some (cd_password1 cd) /\
  (8 <= String.length (cd_password1 cd))%nat.
Proof.
  unfold creation_form_clean.
  repeat match goal with
         | |- context [match ?e with Some _ => _ | None => None end] =>
             destruct e eqn:?; [|discriminate]
         end.
  destruct (negb (String.eqb _ _)) eqn:E1; [discriminate|].
  destruct (Nat.ltb _ 8) eqn:E2; [discriminate|].
  destruct (Forms.email_taken _ _ _); [discriminate|].
  intros H. injection H as <-. simpl.
  apply negb_false_iff, String.eqb_eq in E1. subst.
  apply Nat.ltb_ge in E2. repeat split; assumption.
Qed.

(** A successful [user_create] appends a row under a fresh primary key
    ([next_pk]: no existing row has it); fetching that key gives back the
    submitted email, role, active flag and first password (of at least 8
    characters, equal to the second), with the staff and superuser flags
    unset; every other key still finds what it found before. *)
Theorem user_create_round_trip (req : Request) (w : World) (a : User) (cd : CreationData) :
  req_user req = Some a -> role a = ADMIN -> method req = "POST" ->
  creation_form_clean (POST req) (db w) = Some cd ->
  let w' := snd (user_create req w) in
  let k := next_pk (db w) in
  find_pk k (db w) = None /\
  (exists u, find_pk k (db w') = Some u /\
     Forms.email_field (qd_get (POST req) "email") = Some (email u) /\
     Forms.role_field (qd_get (POST req) "role") = Some (role u) /\
     is_active u = Forms.checkbox_field (qd_get (POST req) "is_active") /\
     Forms.char_field true None (qd_get (POST req) "password1") = Some (password u) /\
     Forms.char_field true None (qd_get (POST req) "password2") = Some (password u) /\
     (8 <= String.length (password u))%nat /\
     is_staff u = false /\ is_superuser u = false) /\
  (forall k', k' <> k -> find_pk k' (db w') = find_pk k' (db w)).
Proof.
  intros Hu Ha Hm Hc. cbv zeta.
  destruct (creation_form_clean_fields _ _ _ Hc) as (He & Hr & Hact & Hp1 & Hp2 & Hlen).
  unfold user_create, admin_required, login_required, is_authenticated, user_role.
  rewrite Hu. simpl. rewrite Ha. unfold user_create_impl. rewrite Hm. simpl. rewrite Hc.
  simpl.
  assert (Hf : find_pk (next_pk (db w)) (db w) = None)
    by (apply find_pk_none_lt; intros v Hv; apply next_pk_fresh; exact Hv).
  split; [exact Hf|split].
  - eexists. rewrite find_pk_app, Hf. unfold find_pk; simpl. rewrite Z.eqb_refl.
    split; [reflexivity|]. simpl. repeat split; auto.
  - intros k' Hk. rewrite find_pk_app.
    destruct (find_pk k' (db w)); [reflexivity|].
    unfold find_pk; simpl.
    destruct (Z.eqb _ k') eqn:E; [apply Z.eqb_eq in E; congruence|reflexivity].
Qed.

Lemma user_create_round_trip_witness :
  creation_form_clean
    [("email", "bob@staffly.io"); ("first_name", "Bob"); ("last_name", "Ray");
     ("role", "STAFF"); ("department", "Sales"); ("job_title", "Clerk");
     ("is_active", "on"); ("password1", "secret123"); ("password2", "secret123")]
    (db Sample.w0) =
  Some (mkCreationData "bob@staffly.io" "Bob" "Ray" STAFF "Sales" "Clerk" true "secret123") /\
  find_pk (next_pk (db Sample.w0)) (db Sample.w0) = None.
Proof.
  split; [vm_compute; reflexivity|].
  exact (proj1 (user_create_round_trip
    (Sample.req "/accounts/users/create/" "POST" (Some Sample.admin) []
       [("email", "bob@staffly.io"); ("first_name", "Bob"); ("last_name", "Ray");
        ("role", "STAFF"); ("department", "Sales"); ("job_title", "Clerk");
        ("is_active", "on"); ("password1", "secret123"); ("password2", "secret123")] 500)
    Sample.w0 Sample.admin
    (mkCreationData "bob@staffly.io" "Bob" "Ray" STAFF "Sales" "Clerk" true "secret123")
    eq_refl eq_refl eq_refl ltac:(vm_compute; reflexivity))).
Defined.

Lemma creation_form_clean_passwords (post : QueryDict) (l : list User) (p1 p2 : string) :
  Forms.char_field true None (qd_get post "password1") = Some p1 ->
  Forms.char_field true None (qd_get post "password2") = Some p2 ->
  p1 <> p2 \/ (String.length p1 < 8)%nat ->
  creation_form_clean post l = None.
Proof.
  intros H1 H2 Hp. unfold creation_form_clean.
  repeat match goal with
         | |- match ?e with Some _ => _ | None => None end = None =>
             destruct e eqn:?; [|reflexivity]
         end.
  rewrite H1 in *. rewrite H2 in *.
  repeat match goal with H : Some _ = Some _ |- _ => injection H as H; subst end.
  destruct (String.eqb _ _) eqn:E; simpl; [|reflexivity].
  apply String.eqb_eq in E. subst.
  destruct Hp as [Hp|Hp]; [congruence|].
  apply Nat.ltb_lt in Hp. rewrite Hp. reflexivity.
Qed.

(** When the two submitted passwords differ, or the first is shorter than 8
    characters, [user_create] adds no row, whoever sends the request and
    whatever the method. *)
Theorem user_create_bad_passwords (req : Request) (w : World) (p1 p2 : string) :
  Forms.char_field true None (qd_get (POST req) "password1") = Some p1 ->
  Forms.char_field true None (qd_get (POST req) "password2") = Some p2 ->
  p1 <> p2 \/ (String.length p1 < 8)%nat ->
  db (snd (user_create req w)) = db w.
Proof.
  intros H1 H2 Hp.
  unfold user_create, admin_required, login_required, is_authenticated, user_role.
  destruct (req_user req) as [u|]; simpl; [|reflexivity].
  destruct (role u); simpl; try reflexivity.
  unfold user_create_impl. destruct (String.eqb (method req) "POST"); [|reflexivity].
  rewrite (creation_form_clean_passwords _ _ p1 p2 H1 H2 Hp). reflexivity.
Qed.

Lemma user_create_bad_passwords_witness :
  db (snd (user_create
    (Sample.req "/accounts/users/create/" "POST" (Some Sample.admin) []
       [("email", "bob@staffly.io"); ("role", "STAFF");
        ("password1", "short"); ("password2", "short")] 500) Sample.w0)) = db Sample.w0.
Proof.
  apply (user_create_bad_passwords _ _ "short" "short"); [reflexivity|reflexivity|].
  right. vm_compute. lia.
Defined.

(** ** The table invariant across the admin views *)

Lemma NoDup_map_filter {B} (col : User -> B) (keep : User -> bool) (rows : list User) :
  NoDup (map col rows) -> NoDup (map col (filter keep rows)).
Proof.
  induction rows as [|x rows IH]; simpl; intros H; [constructor|].
  inversion H as [|? ? Hx Hl]; subst.
  destruct (keep x); simpl; [constructor|]; auto.
  intros Hin. apply Hx. apply in_map_iff in Hin. destruct Hin as (y & Hy & Hyin).
  apply filter_In in Hyin. rewrite <- Hy. apply in_map. tauto.
Qed.

Lemma NoDup_map_inj {A B} (f : A -> B) (l : list A) (a b : A) :
  NoDup (map f l) -> In a l -> In b l -> f a = f b -> a = b.
Proof.
  induction l as [|x l IH]; simpl; [tauto|].
  intros H Ha Hb Hab. inversion H as [|? ? Hx Hl]; subst.
  destruct Ha as [<-|Ha]; destruct Hb as [<-|Hb]; auto.
  - exfalso. apply Hx. rewrite Hab. apply in_map. exact Hb.
  - exfalso. apply Hx. rewrite <- Hab. apply in_map. exact Ha.
Qed.

Lemma find_pk_in (k : Z) (l : list User) (u : User) : find_pk k l = Some u -> In u l.
Proof. unfold find_pk. intros H. apply find_some in H. tauto. Qed.

Lemma map_pk_save_row (x : User) (l : list User) : map pk (save_row x l) = map pk l.
Proof.
  unfold save_row. rewrite map_map. apply map_ext. intros v.
  destruct (Z.eqb (pk v) (pk x)) eqn:E; [apply Z.eqb_eq in E; congruence|reflexivity].
Qed.

Lemma in_map_email_save_row (x : User) (l : list User) (e : string) :
  In e (map email (save_row x l)) -> e = email x \/ In e (map email l).
Proof.
  unfold save_row. rewrite map_map. intros H. apply in_map_iff in H.
  destruct H as (v & Hv & Hin).
  destruct (Z.eqb (pk v) (pk x)); [left; congruence|right; rewrite <- Hv; apply in_map; exact Hin].
Qed.

Lemma save_row_absent (x : User) (l : list User) :
  (forall v, In v l -> pk v <> pk x) -> save_row x l = l.
Proof.
  induction l as [|v l IH]; intros H; [reflexivity|]. simpl.
  destruct (Z.eqb (pk v) (pk x)) eqn:E.
  - apply Z.eqb_eq in E. exfalso. exact (H v (or_introl eq_refl) E).
  - f_equal. apply IH. intros y Hy. apply H. right. exact Hy.
Qed.

Lemma save_row_wf (x : User) (l : list User) :
  table_wf l -> (forall v, In v l -> email v = email x -> pk v = pk x) ->
  table_wf (save_row x l).
Proof.
  unfold table_wf. intros [Hp He] Hx. rewrite map_pk_save_row. split; [exact Hp|].
  induction l as [|v l IH]; simpl; [constructor|].
  inversion Hp as [|? ? Hpv Hpl]; subst. inversion He as [|? ? Hev Hel]; subst.
  destruct (Z.eqb (pk v) (pk x)) eqn:E; simpl.
  - apply Z.eqb_eq in E.
    rewrite save_row_absent.
    + constructor; [|exact Hel]. intros Hin. apply in_map_iff in Hin.
      destruct Hin as (y & Hy & Hyin). apply Hpv.
      rewrite E, <- (Hx y (or_intror Hyin) Hy). apply in_map. exact Hyin.
    + intros y Hy Hpy. apply Hpv. rewrite E, <- Hpy. apply in_map. exact Hy.
  - apply Z.eqb_neq in E. constructor.
    + intros Hin. apply in_map_email_save_row in Hin. destruct Hin as [Hin|Hin].
      * exact (E (Hx v (or_introl eq_refl) Hin)).
      * exact (Hev Hin).
    + apply IH; auto. intros y Hy. apply Hx. right. exact Hy.
Qed.

Lemma delete_row_wf (k : Z) (l : list User) : table_wf l -> table_wf (delete_row k l).
Proof. intros [Hp He]. split; apply NoDup_map_filter; assumption. Qed.

Lemma append_wf (u : User) (l : list User) :
  table_wf l -> ~ In (pk u) (map pk l) -> ~ In (email u) (map email l) ->
  table_wf (l ++ [u]).
Proof.
  intros [Hp He] Hu1 Hu2. split; rewrite map_app; simpl;
    eapply Permutation_NoDup; try apply Permutation_cons_append; constructor; assumption.
Qed.

Lemma email_taken_some_false (k : Z) (e : string) (l : list User) :
  Forms.email_taken (Some k) e l = false ->
  forall v, In v l -> email v = e -> pk v = k.
Proof.
  intros H v Hv He. destruct (Z.eqb (pk v) k) eqn:E; [apply Z.eqb_eq; exact E|].
  exfalso. assert (Ht : Forms.email_taken (Some k) e l = true).
  { unfold Forms.email_taken. apply existsb_exists. exists v. split; [exact Hv|].
    rewrite He, String.eqb_refl, E. reflexivity. }
  congruence.
Qed.

Lemma admin_update_form_email (post files : QueryDict) (l : list User) (row u : User) :
  admin_update_form post files l row = Some u ->
  pk u = pk row /\ Forms.email_taken (Some (pk row)) (email u) l = false.
Proof.
  unfold admin_update_form.
  repeat match goal with
         | |- context [match ?e with Some _ => _ | None => _ end] =>
             destruct e eqn:?; [|discriminate]
         end.
  destruct (Forms.email_taken _ _ _) eqn:Et; [discriminate|].
  intros H. injection H as <-. simpl. auto.
Qed.

Lemma fresh_pk_not_in (l : list User) : ~ In (next_pk l) (map pk l).
Proof.
  intros Hin. apply in_map_iff in Hin. destruct Hin as (v & Hv & Hin).
  pose proof (next_pk_fresh l v Hin). lia.
Qed.

Lemma admin_ops_wf (o : AdminOp) (req : Request) (w : World) :
  table_wf (db w) -> table_wf (db (snd (op_view o req w))).
Proof.
  intros Hwf. rewrite op_view_admin_required, admin_required_unfold.
  destruct (req_user req) as [me|]; [|exact Hwf].
  destruct (role me); try exact Hwf.
  destruct o as [| |k|k|k|k]; simpl.
  - unfold user_list_impl. destruct (user_list_queryset _ _); exact Hwf.
  - unfold user_create_impl. destruct (String.eqb (method req) "POST"); [|exact Hwf].
    destruct (creation_form_clean (POST req) (db w)) as [cd|] eqn:Hc; [|exact Hwf].
    simpl. apply append_wf; [exact Hwf|apply fresh_pk_not_in|].
    exact (creation_form_clean_email _ _ _ Hc).
  - unfold user_detail_impl, get_object_or_404.
    destruct (find_pk k (db w)); exact Hwf.
  - unfold user_update_impl, get_object_or_404.
    destruct (find_pk k (db w)) as [row|]; [|exact Hwf].
    destruct (String.eqb (method req) "POST"); [|exact Hwf].
    destruct (admin_update_form (POST req) (FILES req) (db w) row) as [u|] eqn:Ha;
      [|exact Hwf].
    simpl. destruct (admin_update_form_email _ _ _ _ _ Ha) as [Hpk Ht].
    apply save_row_wf; [exact Hwf|]. simpl. intros v Hv He. rewrite Hpk.
    exact (email_taken_some_false _ _ _ Ht v Hv He).
  - unfold require_POST. destruct (String.eqb (method req) "POST"); [|exact Hwf].
    unfold user_delete_impl, get_object_or_404.
    destruct (find_pk k (db w)) as [row|]; [|exact Hwf].
    destruct (same_user row (req_user req)); simpl; [exact Hwf|].
    apply delete_row_wf; exact Hwf.
  - unfold require_POST. destruct (String.eqb (method req) "POST"); [|exact Hwf].
    unfold user_toggle_status_impl, get_object_or_404.
    destruct (find_pk k (db w)) as [row|] eqn:Hf; [|exact Hwf].
    destruct (same_user row (req_user req)); [exact Hwf|].
    simpl. apply save_row_wf; [exact Hwf|]. simpl. intros v Hv He.
    f_equal. apply (NoDup_map_inj email (db w)); auto; [apply (proj2 Hwf)|].
    exact (find_pk_in _ _ _ Hf).
Qed.

(** Each of the six admin user-management views (list, create, detail,
    edit, delete, toggle-status), whoever sends the request, keeps the
    primary keys and the emails of the table pairwise distinct. *)
Theorem admin_ops_keep_table_wf (o : AdminOp) (req : Request) (w : World) :
  table_wf (db w) -> table_wf (db (snd (op_view o req w))).
Proof. exact (admin_ops_wf o req w). Qed.

Lemma admin_ops_keep_table_wf_witness :
  table_wf (db (snd (op_view (OpToggle 3)
    (Sample.req "/accounts/users/3/toggle-status/" "POST" (Some Sample.admin) [] [] 900)
    Sample.w0))).
Proof.
  apply admin_ops_keep_table_wf. split; vm_compute; repeat constructor; simpl; intuition discriminate.
Defined.

(** ** Missing rows and deletion *)

(** For an ADMIN, a primary key with no row makes the detail and edit views
    answer 404, and the delete and toggle-status views answer 404 to a POST
    and 405 to any other method; in every case the world (table, messages,
    session) is left as it was. *)
Theorem admin_ops_missing_pk (k : Z) (req : Request) (w : World) (a : User) :
  req_user req = Some a -> role a = ADMIN -> find_pk k (db w) = None ->
  user_detail k req w = (Http404, w) /\
  user_update k req w = (Http404, w) /\
  user_delete k req w =
    (if String.eqb (method req) "POST" then Http404 else HttpResponseNotAllowed, w) /\
  user_toggle_status k req w =
    (if String.eqb (method req) "POST" then Http404 else HttpResponseNotAllowed, w).
Proof.
  intros Hu Ha Hf.
  unfold user_detail, user_update, user_delete, user_toggle_status.
  rewrite !admin_required_unfold, Hu, Ha.
  unfold user_detail_impl, user_update_impl, user_delete_impl, user_toggle_status_impl,
    require_POST, get_object_or_404.
  rewrite Hf. split; [reflexivity|split; [reflexivity|]].
  destruct (String.eqb (method req) "POST"); split; cbv beta; rewrite ?Hf; reflexivity.
Qed.

Lemma admin_ops_missing_pk_witness :
  user_delete 42 (Sample.req "/accounts/users/42/delete/" "POST" (Some Sample.admin) [] [] 0)
    Sample.w0 = (Http404, Sample.w0).
Proof.
  exact (proj1 (proj2 (proj2 (admin_ops_missing_pk 42
    (Sample.req "/accounts/users/42/delete/" "POST" (Some Sample.admin) [] [] 0)
    Sample.w0 Sample.admin eq_refl eq_refl eq_refl)))).
Defined.

Lemma filter_pk_length (t : User) (l : list User) :
  NoDup (map pk l) -> In t l ->
  length (filter (fun v => negb (Z.eqb (pk v) (pk t))) l) = pred (length l).
Proof.
  induction l as [|v l IH]; simpl; [tauto|]. intros Hnd Hin.
  inversion Hnd as [|? ? Hv Hl]; subst.
  destruct Hin as [<-|Hin].
  - rewrite Z.eqb_refl. simpl.
    assert (Hall : filter (fun x => negb (Z.eqb (pk x) (pk v))) l = l).
    { apply forallb_filter_id. apply forallb_forall. intros x Hx.
      destruct (Z.eqb (pk x) (pk v)) eqn:E; [|reflexivity].
      apply Z.eqb_eq in E. exfalso. apply Hv. rewrite <- E. apply in_map. exact Hx. }
    rewrite Hall. reflexivity.
  - destruct (Z.eqb (pk v) (pk t)) eqn:E.
    + apply Z.eqb_eq in E. exfalso. apply Hv. rewrite E. apply in_map. exact Hin.
    + simpl. rewrite IH by assumption. destruct l; [contradiction|reflexivity].
Qed.

Lemma find_pk_delete_row (k : Z) (l : list User) : find_pk k (delete_row k l) = None.
Proof.
  induction l as [|v l IH]; [reflexivity|]. unfold delete_row, find_pk in *. simpl.
  destruct (Z.eqb (pk v) k) eqn:E; simpl; [exact IH|]. rewrite E. exact IH.
Qed.

(** An ADMIN deleting (by POST) an existing row other than their own
    removes exactly that row: afterwards its key finds nothing, the other
    rows are all still there, and the table is one row shorter. *)
Theorem user_delete_removes_one (k : Z) (req : Request) (w : World) (a t : User) :
  req_user req = Some a -> role a = ADMIN -> method req = "POST" ->
  find_pk k (db w) = Some t -> pk t <> pk a -> table_wf (db w) ->
  let d := db (snd (user_delete k req w)) in
  find_pk k d = None /\
  (forall v, In v d <-> In v (db w) /\ pk v <> k) /\
  length d = pred (length (db w)).
Proof.
  intros Hu Ha Hm Hf Hne Hwf. cbv zeta.
  pose proof (find_pk_pk _ _ _ Hf) as Hk.
  unfold user_delete. rewrite admin_required_unfold, Hu, Ha.
  unfold require_POST. rewrite Hm. simpl.
  unfold user_delete_impl, get_object_or_404. rewrite Hf.
  unfold same_user. rewrite Hu.
  destruct (Z.eqb (pk t) (pk a)) eqn:E; [apply Z.eqb_eq in E; contradiction|].
  simpl. rewrite Hk. split; [|split].
  - apply find_pk_delete_row.
  - intros v. unfold delete_row. rewrite filter_In, negb_true_iff, Z.eqb_neq. tauto.
  - unfold delete_row. rewrite <- Hk. apply filter_pk_length; [exact (proj1 Hwf)|].
    exact (find_pk_in _ _ _ Hf).
Qed.

Lemma user_delete_removes_one_witness :
  length (db (snd (user_delete 3
    (Sample.req "/accounts/users/3/delete/" "POST" (Some Sample.admin) [] [] 0) Sample.w0))) = 2%nat.
Proof.
  refine (eq_trans (proj2 (proj2 (user_delete_removes_one 3
    (Sample.req "/accounts/users/3/delete/" "POST" (Some Sample.admin) [] [] 0)
    Sample.w0 Sample.admin Sample.alice eq_refl eq_refl eq_refl eq_refl _ _))) eq_refl).
  - discriminate.
  - split; vm_compute; repeat constructor; simpl; intuition discriminate.
Defined.

(** ** The paginated user list *)

(** [Paginator.get_page] with a positive page size: the page number it
    settles on is between 1 and the number of pages, a page holds at most
    [per_page] rows, and a non-empty list never yields an empty page, even
    for a missing, non-numeric or out-of-range page number. *)
Theorem get_page_bounds (per : Z) (l : list User) (number : option string) :
  0 < per ->
  let pg := QS.get_page per l number in
  1 <= pg_number pg <= pg_num_pages pg /\
  (length (pg_items pg) <= Z.to_nat per)%nat /\
  (l <> [] -> pg_items pg <> []).
Proof.
  intros Hper. cbv zeta. unfold QS.get_page, QS.num_pages. cbn [pg_number pg_num_pages pg_items].
  set (c := Z.of_nat (length l)).
  set (np := if c =? 0 then 1 else (c + per - 1) / per).
  assert (Hnp : 1 <= np /\ (c <> 0 -> per * np <= c + per - 1)).
  { unfold np. destruct (Z.eqb_spec c 0) as [E|E].
    - split; [lia|congruence].
    - split.
      + apply Z.div_le_lower_bound; lia.
      + intros _. apply Z.mul_div_le. exact Hper. }
  set (n := match option_map Py.int_of_string number with
            | Some (Some k) => if (k <? 1) || (np <? k) then np else k
            | _ => 1
            end).
  assert (Hn : 1 <= n <= np).
  { unfold n. destruct (option_map Py.int_of_string number) as [[k|]|]; try lia.
    destruct (Z.ltb_spec k 1); destruct (Z.ltb_spec np k); simpl; lia. }
  split; [exact Hn|split].
  - rewrite length_firstn. lia.
  - intros Hl Hnil. apply (f_equal (@length User)) in Hnil.
    rewrite length_firstn, length_skipn in Hnil. simpl in Hnil.
    assert (Hc : c <> 0) by (unfold c; destruct l; [congruence|simpl; lia]).
    destruct Hnp as [_ Hnp]. specialize (Hnp Hc).
    assert (per * n <= per * np) by (apply Z.mul_le_mono_nonneg_l; lia).
    unfold c in *. lia.
Qed.

Lemma get_page_bounds_witness :
  (1 <= pg_number (QS.get_page 10 (db Sample.w0) (Some "7"))
      <= pg_num_pages (QS.get_page 10 (db Sample.w0) (Some "7"))).
Proof. exact (proj1 (get_page_bounds 10 (db Sample.w0) (Some "7") eq_refl)). Defined.

Lemma filter_active_split (l : list User) :
  (length (filter is_active l) + length (filter (fun u => negb (is_active u)) l))%nat = length l.
Proof.
  induction l as [|v l IH]; simpl; [reflexivity|].
  destruct (is_active v); simpl; lia.
Qed.

Lemma order_by_perm (o : string) (l l' : list User) :
  QS.order_by o l = QS.Ok l' -> Permutation l' l.
Proof.
  unfold QS.order_by. destruct (String.eqb o "?").
  - intros H. injection H as <-. reflexivity.
  - destruct (match o with String "-" n => (true, n) | _ => (false, o) end) as [desc name].
    destruct (QS.column_key name); [|discriminate].
    intros H. injection H as <-. apply sort_perm.
Qed.

Lemma user_list_render_props (req : Request) (w w' : World) (a : User) (pg : Page)
    (total act inact : nat) :
  req_user req = Some a -> role a = ADMIN ->
  user_list req w = (RenderUserList pg total act inact, w') ->
  w' = w /\ total = (act + inact)%nat /\
  1 <= pg_number pg <= pg_num_pages pg /\ (length (pg_items pg) <= 10)%nat /\
  (forall u, In u (pg_object_list pg) ->
     In u (db w) /\
     (let s := qd_get_default (GET req) "search" "" in
      s <> "" -> search_matches s u = true) /\
     (let r := qd_get_default (GET req) "role" "" in
      r <> "" -> role_str (role u) = r) /\
     (qd_get_default (GET req) "status" "" = "active" -> is_active u = true) /\
     (qd_get_default (GET req) "status" "" = "inactive" -> is_active u = false)).
Proof.
  intros Hu Ha H. unfold user_list in H. rewrite admin_required_unfold, Hu, Ha in H.
  unfold user_list_impl in H.
  destruct (user_list_queryset (GET req) (db w)) as [users|m] eqn:Hq; [|discriminate].
  injection H as Hpg Ht Hact Hin Hw. subst pg total act inact w'.
  destruct (get_page_bounds 10 users (qd_get (GET req) "page") eq_refl) as (Hb & Hlen & _).
  split; [reflexivity|split; [symmetry; apply filter_active_split|]].
  split; [exact Hb|split; [exact Hlen|]].
  simpl. intros u Hu'.
  unfold user_list_queryset in Hq. cbv zeta in Hq.
  apply order_by_perm in Hq. apply (Permutation_in u Hq) in Hu'. clear Hq.
  set (s := qd_get_default (GET req) "search" "") in *.
  set (r := qd_get_default (GET req) "role" "") in *.
  set (st := qd_get_default (GET req) "status" "") in *.
  assert (Hs : In u (if String.eqb s "" then db w else filter (search_matches s) (db w)) /\
               (s <> "" -> search_matches s u = true) /\
               (r <> "" -> role_str (role u) = r) /\
               (st = "active" -> is_active u = true) /\
               (st = "inactive" -> is_active u = false)).
  { destruct (String.eqb_spec st "active") as [Ea|Ea];
    [|destruct (String.eqb_spec st "inactive") as [Ei|Ei]];
    try (apply filter_In in Hu'; destruct Hu' as [Hu' Hf]);
    (destruct (String.eqb_spec r "") as [Er|Er];
     [|apply filter_In in Hu'; destruct Hu' as [Hu' Hr]; apply String.eqb_eq in Hr]);
    (split; [exact Hu'|]);
    (destruct (String.eqb_spec s "") as [Es|Es];
     [|apply filter_In in Hu'; destruct Hu' as [_ Hsm]]);
    repeat split; intros; subst; try congruence; try assumption;
    try (apply negb_true_iff in Hf; assumption). }
  destruct Hs as (Hdb & Hs).
  split; [|exact Hs].
  destruct (String.eqb s ""); [exact Hdb|apply filter_In in Hdb; tauto].
Qed.

Lemma order_by_ok (o : string) (l : list User) :
  o = "?" \/ QS.column_key (ordering_name o) <> None -> exists l', QS.order_by o l = QS.Ok l'.
Proof.
  unfold QS.order_by, ordering_name. intros Ho.
  destruct (String.eqb_spec o "?") as [E|E]; [eexists; reflexivity|].
  destruct Ho as [Ho|Ho]; [contradiction|]. revert Ho.
  destruct (match o with String "-" n => (true, n) | _ => (false, o) end) as [desc name].
  cbn [snd]. destruct (QS.column_key name); [|congruence].
  intros _. eexists. reflexivity.
Qed.

(** [user_list] for an ADMIN whose [ordering] parameter is ['?'] or names
    a column of [User] (with or without a leading ['-']; absent, it is
    ['-date_joined']): the list page is rendered and the world is left as
    it was; the three counters satisfy total = active + inactive, the
    page number lies between 1 and the page count, a page shows at most
    10 rows, and every listed row is a row of the table that passes each
    filter given in the query string (search term, role, status). *)
Theorem user_list_renders (req : Request) (w : World) (a : User) :
  req_user req = Some a -> role a = ADMIN ->
  (let o := qd_get_default (GET req) "ordering" "-date_joined" in
   o = "?" \/ QS.column_key (ordering_name o) <> None) ->
  exists pg act inact,
  user_list req w = (RenderUserList pg (length (db w)) act inact, w) /\
  length (db w) = (act + inact)%nat /\
  1 <= pg_number pg <= pg_num_pages pg /\ (length (pg_items pg) <= 10)%nat /\
  (forall u, In u (pg_object_list pg) ->
     In u (db w) /\
     (let s := qd_get_default (GET req) "search" "" in
      s <> "" -> search_matches s u = true) /\
     (let r := qd_get_default (GET req) "role" "" in
      r <> "" -> role_str (role u) = r) /\
     (qd_get_default (GET req) "status" "" = "active" -> is_active u = true) /\
     (qd_get_default (GET req) "status" "" = "inactive" -> is_active u = false)).
Proof.
  intros Hu Ha Ho.
  assert (Hq : exists users, user_list_queryset (GET req) (db w) = QS.Ok users).
  { unfold user_list_queryset. cbv zeta. apply order_by_ok. exact Ho. }
  destruct Hq as [users Hq].
  assert (H : user_list req w =
            (RenderUserList (QS.get_page 10 users (qd_get (GET req) "page"))
               (length (db w)) (length (filter is_active (db w)))
               (length (filter (fun u => negb (is_active u)) (db w))), w)).
  { unfold user_list. rewrite admin_required_unfold, Hu, Ha.
    unfold user_list_impl. rewrite Hq. reflexivity. }
  do 3 eexists. split; [exact H|].
  destruct (user_list_render_props req w w a _ _ _ _ Hu Ha H) as (_ & Ht & Hrest).
  split; [exact Ht|exact Hrest].
Qed.

Lemma user_list_renders_witness :
  exists pg act inact,
    user_list (Sample.req "/accounts/users/" "GET" (Some Sample.admin)
                 [("role", "STAFF"); ("page", "9"); ("ordering", "-email")] [] 0) Sample.w0 =
      (RenderUserList pg (length (db Sample.w0)) act inact, Sample.w0) /\
    1 <= pg_number pg <= pg_num_pages pg.
Proof.
  destruct (user_list_renders
    (Sample.req "/accounts/users/" "GET" (Some Sample.admin)
       [("role", "STAFF"); ("page", "9"); ("ordering", "-email")] [] 0) Sample.w0 Sample.admin
    eq_refl eq_refl ltac:(right; vm_compute; discriminate))
    as (pg & act & inact & H1 & _ & H2 & _).
  exists pg, act, inact. split; [exact H1|exact H2].
Defined.

(** ** The user manager *)

Lemma existsb_email_in (e : string) (l : list User) :
  existsb (fun v => String.eqb (email v) e) l = false -> ~ In e (map email l).
Proof.
  intros H Hin. apply in_map_iff in Hin. destruct Hin as (v & Hv & Hin).
  assert (existsb (fun v => String.eqb (email v) e) l = true)
    by (apply existsb_exists; exists v; rewrite Hv, String.eqb_refl; auto).
  congruence.
Qed.

(** [UserManager.create_user]: an empty email raises [ValueError]; an
    email already stored (after normalisation) is refused by the unique
    index; in both cases the table is unchanged. Otherwise the new row is
    appended under a fresh key and found again by it, with the normalised
    email and the defaults (role USER, active, neither staff nor superuser)
    for every flag not passed; the table invariant is kept either way. *)
Theorem create_user_outcome (e pw : string) (xf : Manager.ExtraFields) (t : Z) (l : list User) :
  (e = "" -> fst (Manager.create_user e pw xf t l) = Manager.ValueError "The Email field must be set") /\
  (table_wf l -> table_wf (snd (Manager.create_user e pw xf t l))) /\
  match Manager.create_user e pw xf t l with
  | (Manager.CreatedUser u, l') =>
      l' = app l [u] /\ find_pk (pk u) l = None /\ find_pk (pk u) l' = Some u /\
      email u = Manager.normalize_email e /\ password u = pw /\
      role u = match Manager.xf_role xf with Some r => r | None => USER end /\
      is_active u = match Manager.xf_is_active xf with Some b => b | None => true end /\
      is_staff u = match Manager.xf_is_staff xf with Some b => b | None => false end /\
      is_superuser u = match Manager.xf_is_superuser xf with Some b => b | None => false end
  | (_, l') => l' = l
  end.
Proof.
  unfold Manager.create_user.
  destruct (String.eqb_spec e "") as [E|E].
  { split; [reflexivity|split; [intros H; exact H|reflexivity]]. }
  split; [intros; contradiction|]. cbv zeta.
  destruct (existsb _ l) eqn:Ex.
  { split; [intros H; exact H|reflexivity]. }
  assert (Hf : find_pk (next_pk l) l = None)
    by (apply find_pk_none_lt; intros v Hv; apply next_pk_fresh; exact Hv).
  split.
  - intros Hwf. apply append_wf; [exact Hwf|apply fresh_pk_not_in|].
    apply existsb_email_in. exact Ex.
  - simpl. split; [reflexivity|split; [exact Hf|]].
    split.
    + rewrite find_pk_app, Hf. unfold find_pk. simpl. rewrite Z.eqb_refl. reflexivity.
    + repeat split;
        repeat match goal with |- context [match ?o with Some _ => _ | None => _ end] =>
                 destruct o; reflexivity end.
Qed.

(** [UserManager.create_superuser]: passing [is_staff=False] or
    [is_superuser=False] raises [ValueError] before anything is stored; a
    created superuser always has both flags set, and the ADMIN role unless
    another role was passed. *)
Theorem create_superuser_flags (e pw : string) (xf : Manager.ExtraFields) (t : Z) (l : list User) :
  (Manager.xf_is_staff xf = Some false \/ Manager.xf_is_superuser xf = Some false ->
   exists m, Manager.create_superuser e pw xf t l = (Manager.ValueError m, l)) /\
  match Manager.create_superuser e pw xf t l with
  | (Manager.CreatedUser u, l') =>
      l' = app l [u] /\ is_staff u = true /\ is_superuser u = true /\
      role u = match Manager.xf_role xf with Some r => r | None => ADMIN end
  | (_, l') => l' = l
  end.
Proof.
  unfold Manager.create_superuser. simpl.
  split.
  - intros [H|H]; rewrite H; [eexists; reflexivity|].
    destruct (Manager.xf_is_staff xf) as [[|]|]; eexists; reflexivity.
  - destruct (Manager.xf_is_staff xf) as [[|]|] eqn:Es; simpl; try reflexivity;
    destruct (Manager.xf_is_superuser xf) as [[|]|] eqn:Esu; simpl; try reflexivity;
    (pose proof (proj2 (proj2 (create_user_outcome e pw
       (Manager.mkExtra (Manager.setdefault (Manager.xf_role xf) ADMIN)
          (Manager.setdefault (Manager.xf_is_active xf) true) (Some true) (Some true)) t l)))
       as Hc;
     destruct (Manager.create_user _ _ _ _ _) as [[u| |] l'];
     [destruct Hc as (Hl & _ & _ & _ & _ & Hr & _ & Hst & Hsu); simpl in *;
      repeat split; auto; rewrite Hr; destruct (Manager.xf_role xf); reflexivity
     | exact Hc | exact Hc]).
Qed.

Lemma create_superuser_flags_witness :
  exists m, Manager.create_superuser "root@staffly.io" "pw"
              (Manager.mkExtra None None (Some false) None) 0 (db Sample.w0) =
            (Manager.ValueError m, db Sample.w0).
Proof.
  apply (proj1 (create_superuser_flags "root@staffly.io" "pw"
    (Manager.mkExtra None None (Some false) None) 0 (db Sample.w0))).
  left. reflexivity.
Defined.

(** [get_admins], [get_staff] and [get_regular_users] split the active
    users: together they list each active row exactly once, and no
    inactive row. *)
Theorem manager_role_partition (l : list User) :
  Permutation (Manager.get_admins l ++ Manager.get_staff l ++ Manager.get_regular_users l)
              (filter is_active l).
Proof.
  unfold Manager.get_admins, Manager.get_staff, Manager.get_regular_users.
  induction l as [|v l IH]; simpl; [reflexivity|].
  destruct (is_active v); destruct (role v); simpl; rewrite ?andb_false_r; simpl;
    try exact IH.
  - apply perm_skip. exact IH.
  - rewrite <- Permutation_middle. apply perm_skip. exact IH.
  - rewrite app_assoc, <- Permutation_middle, <- app_assoc. apply perm_skip. exact IH.
Qed.

(** ** Changing one's password and logging out *)

Lemma find_pk_save_row_other (k : Z) (x : User) (l : list User) :
  k <> pk x -> find_pk k (save_row x l) = find_pk k l.
Proof.
  intros Hk. induction l as [|v l IH]; [reflexivity|]. unfold find_pk in *. simpl.
  destruct (Z.eqb (pk v) (pk x)) eqn:E; simpl.
  - apply Z.eqb_eq in E. rewrite <- E in Hk.
    destruct (Z.eqb (pk x) k) eqn:E2; [apply Z.eqb_eq in E2; congruence|].
    destruct (Z.eqb (pk v) k) eqn:E3; [apply Z.eqb_eq in E3; congruence|]. exact IH.
  - destruct (Z.eqb (pk v) k); [reflexivity|exact IH].
Qed.

Lemma password_change_form_new (vp : string -> User -> bool) (post : QueryDict) (me : User) (p : string) :
  password_change_form vp post me = Some p ->
  raw_field (qd_get post "new_password1") = Some p /\
  raw_field (qd_get post "new_password2") = Some p /\ vp p me = true /\
  (exists old, Forms.char_field true None (qd_get post "old_password") = Some old /\
               check_password me old = true).
Proof.
  unfold password_change_form.
  destruct (Forms.char_field true None (qd_get post "old_password")) as [old|]; [|discriminate].
  destruct (check_password me old) eqn:Ec; simpl; [|discriminate].
  destruct (raw_field (qd_get post "new_password1")) as [p1|]; [|discriminate].
  destruct (raw_field (qd_get post "new_password2")) as [p2|]; [|discriminate].
  destruct (String.eqb_spec p1 p2) as [<-|]; simpl; [|discriminate].
  destruct (vp p1 me) eqn:Ev; simpl; [|discriminate].
  intros H. injection H as <-. repeat split; auto. exists old. auto.
Qed.

(** [password_change] for a signed-in user: a wrong current password, or
    two different new passwords, leaves the world as it was. A successful
    POST stores [new_password1] (verified against the current password,
    equal to [new_password2] and accepted by the validators) in the user's
    own row, stamps [updated_at], keeps the session signed in, and leaves
    every other row as it was. *)
Theorem password_change_outcome (vp : string -> User -> bool) (req : Request) (w : World) (me : User) :
  req_user req = Some me ->
  (forall old, Forms.char_field true None (qd_get (POST req) "old_password") = Some old ->
     check_password me old = false ->
     password_change vp req w = (Render "accounts/password_change.html", w)) /\
  (forall p1 p2, raw_field (qd_get (POST req) "new_password1") = Some p1 ->
     raw_field (qd_get (POST req) "new_password2") = Some p2 -> p1 <> p2 ->
     password_change vp req w = (Render "accounts/password_change.html", w)) /\
  (forall p, method req = "POST" -> password_change_form vp (POST req) me = Some p ->
     find_pk (pk me) (db w) <> None ->
     let w' := snd (password_change vp req w) in
     find_pk (pk me) (db w') = Some (touch (now req) (set_password p me)) /\
     raw_field (qd_get (POST req) "new_password1") = Some p /\
     session w' = session w /\
     (forall k, k <> pk me -> find_pk k (db w') = find_pk k (db w))).
Proof.
  intros Hu.
  assert (Hreach : password_change vp req w = password_change_impl vp req w)
    by (unfold password_change, login_required, is_authenticated; rewrite Hu; reflexivity).
  rewrite Hreach. unfold password_change_impl. rewrite Hu.
  split; [|split].
  - intros old Ho Hc. destruct (String.eqb (method req) "POST"); [|reflexivity].
    unfold password_change_form. rewrite Ho, Hc. reflexivity.
  - intros p1 p2 H1 H2 Hne. destruct (String.eqb (method req) "POST"); [|reflexivity].
    unfold password_change_form.
    destruct (Forms.char_field _ _ _); [|reflexivity].
    destruct (negb _); [reflexivity|]. rewrite H1, H2.
    destruct (String.eqb_spec p1 p2); [contradiction|reflexivity].
  - intros p Hm Hf Hex. cbv zeta. rewrite Hm. simpl. rewrite Hf. simpl.
    destruct (password_change_form_new _ _ _ _ Hf) as (Hp1 & _).
    split; [|split; [exact Hp1|split; [reflexivity|]]].
    + apply find_pk_save_row; [reflexivity|exact Hex].
    + intros k Hk. apply find_pk_save_row_other. exact Hk.
Qed.

Lemma password_change_outcome_witness :
  password_change (fun _ _ => true)
    (Sample.req "/accounts/profile/password/" "POST" (Some Sample.alice) []
       [("old_password", "wrong"); ("new_password1", "n3wpassw0rd");
        ("new_password2", "n3wpassw0rd")] 700) Sample.w0 =
  (Render "accounts/password_change.html", Sample.w0).
Proof.
  apply (proj1 (password_change_outcome (fun _ _ => true)
    (Sample.req "/accounts/profile/password/" "POST" (Some Sample.alice) []
       [("old_password", "wrong"); ("new_password1", "n3wpassw0rd");
        ("new_password2", "n3wpassw0rd")] 700) Sample.w0 Sample.alice eq_refl) "wrong");
  reflexivity.
Defined.

(** ** The dashboards *)

Lemma in_firstn_in {A} (n : nat) (l : list A) (x : A) : In x (firstn n l) -> In x l.
Proof.
  intros H. rewrite <- (firstn_skipn n l). apply in_or_app. left. exact H.
Qed.

(** The staff dashboard's lists: [colleagues] holds at most 10 active
    STAFF or USER rows other than the requester; [department_members] is
    empty for a requester without a department, and otherwise holds
    exactly the other active rows of the requester's department. *)
Theorem staff_dashboard_lists (me : User) (l : list User) :
  (forall v, In v (Dashboard.colleagues me l) ->
     In v l /\ pk v <> pk me /\ is_active v = true /\ role v <> ADMIN) /\
  (length (Dashboard.colleagues me l) <= 10)%nat /\
  (department me = "" -> Dashboard.department_members me l = []) /\
  (department me <> "" -> forall v,
     In v (Dashboard.department_members me l) <->
     In v l /\ pk v <> pk me /\ is_active v = true /\ department v = department me).
Proof.
  unfold Dashboard.colleagues, Dashboard.department_members.
  split; [|split; [|split]].
  - intros v Hv. apply in_firstn_in in Hv. apply (Permutation_in v (sort_perm _ _)) in Hv.
    rewrite !filter_In in Hv. destruct Hv as [[Hv Hr] Hp].
    apply negb_true_iff, Z.eqb_neq in Hp. apply andb_prop in Hr. destruct Hr as [Hr Ha].
    repeat split; auto. intros E. rewrite E in Hr. discriminate.
  - apply firstn_le_length.
  - intros E. rewrite E. reflexivity.
  - intros Hd v. destruct (String.eqb_spec (department me) "") as [E|E]; [contradiction|].
    simpl. rewrite !filter_In, negb_true_iff, Z.eqb_neq, andb_true_iff, String.eqb_eq. tauto.
Qed.

Lemma count_le_length (p : User -> bool) (l : list User) : (Dashboard.count p l <= length l)%nat.
Proof.
  unfold Dashboard.count. induction l as [|v l IH]; simpl; [lia|].
  destruct (p v); simpl; lia.
Qed.

Lemma count_mono (p q : User -> bool) (l : list User) :
  (forall v, p v = true -> q v = true) -> (Dashboard.count p l <= Dashboard.count q l)%nat.
Proof.
  intros H. unfold Dashboard.count. induction l as [|v l IH]; simpl; [lia|].
  destruct (p v) eqn:E; [rewrite (H v E)|destruct (q v)]; simpl; lia.
Qed.

(** The admin dashboard's statistics add up: active plus inactive users,
    and ADMIN plus STAFF plus USER counts, each give the total; the users
    who joined this week are among those who joined this month, who are at
    most the total; at most 5 recent users are shown, the 5 latest when
    there are that many, all taken from the table. *)
Theorem admin_stats_consistent (t : Z) (l : list User) :
  let s := Dashboard.admin_dashboard_context t l in
  (Dashboard.active_users s + Dashboard.inactive_users s = Dashboard.total_users s)%nat /\
  (Dashboard.admin_count s + Dashboard.staff_count s + Dashboard.user_count s =
     Dashboard.total_users s)%nat /\
  (Dashboard.new_users_week s <= Dashboard.new_users_month s <= Dashboard.total_users s)%nat /\
  (Dashboard.active_today s <= Dashboard.total_users s)%nat /\
  length (Dashboard.recent_users s) = Nat.min 5 (Dashboard.total_users s) /\
  (forall v, In v (Dashboard.recent_users s) -> In v l).
Proof.
  cbv zeta. unfold Dashboard.admin_dashboard_context. cbn [Dashboard.active_users
    Dashboard.inactive_users Dashboard.total_users Dashboard.admin_count Dashboard.staff_count
    Dashboard.user_count Dashboard.new_users_week Dashboard.new_users_month
    Dashboard.active_today Dashboard.recent_users].
  split; [apply filter_active_split|split; [|split; [|split; [|split]]]].
  - unfold Dashboard.count. induction l as [|v l IH]; simpl; [reflexivity|].
    destruct (role v); simpl; lia.
  - split; [apply count_mono; intros v H; apply Z.leb_le in H; apply Z.leb_le; lia|].
    apply count_le_length.
  - apply count_le_length.
  - rewrite length_firstn, (Permutation_length (sort_perm _ _)). reflexivity.
  - intros v Hv. apply in_firstn_in in Hv. exact (Permutation_in v (sort_perm _ _) Hv).
Qed.

(** ** Self-service views and the last-login middleware *)

Lemma self_row_wf (me : User) (x : User) (l : list User) :
  table_wf l -> In me l -> pk x = pk me -> email x = email me ->
  table_wf (save_row x l) /\ map pk (save_row x l) = map pk l /\
  map email (save_row x l) = map email l.
Proof.
  intros Hwf Hin Hp He.
  assert (Hsame : forall v, In v l -> pk v = pk x -> v = me).
  { intros v Hv Hpv. apply (NoDup_map_inj pk l); [exact (proj1 Hwf)|exact Hv|exact Hin|congruence]. }
  split; [|split].
  - apply save_row_wf; [exact Hwf|].
    intros v Hv Hev. rewrite Hp. f_equal.
    apply (NoDup_map_inj email l); [exact (proj2 Hwf)|exact Hv|exact Hin|congruence].
  - unfold save_row. rewrite map_map. apply map_ext_in. intros v Hv.
    destruct (Z.eqb_spec (pk v) (pk x)) as [E|E]; [congruence|reflexivity].
  - unfold save_row. rewrite map_map. apply map_ext_in. intros v Hv.
    destruct (Z.eqb_spec (pk v) (pk x)) as [E|E]; [|reflexivity].
    rewrite (Hsame v Hv E). exact He.
Qed.

Lemma self_service_cols (vp : string -> User -> bool) (req : Request) (w : World)
    (me : User) :
  table_wf (db w) -> req_user req = Some me -> In me (db w) ->
  (let l := db (snd (profile_update req w)) in
   table_wf l /\ map pk l = map pk (db w) /\ map email l = map email (db w)) /\
  (let l := db (snd (password_change vp req w)) in
   table_wf l /\ map pk l = map pk (db w) /\ map email l = map email (db w)).
Proof.
  intros Hwf Hu Hin. cbv zeta.
  unfold profile_update, password_change, login_required, is_authenticated.
  rewrite Hu. unfold profile_update_impl, password_change_impl. rewrite Hu.
  destruct (String.eqb (method req) "POST"); [|split; auto].
  split.
  - destruct (user_update_form (POST req) (FILES req) me) as [u|] eqn:Hf; [|auto].
    simpl. apply (self_row_wf me); auto;
      unfold user_update_form in Hf;
      repeat match goal with
             | H : match ?e with Some _ => _ | None => None end = Some _ |- _ =>
                 destruct e; [|discriminate]
             end;
      injection Hf as <-; reflexivity.
  - destruct (password_change_form vp (POST req) me); [|auto].
    simpl. apply (self_row_wf me); auto.
Qed.

(** [profile_update] and [password_change], sent by a user whose row is
    in the table, leave the primary-key column and the email column as
    they were, row by row (neither view can change an email), and so keep
    the primary keys and the emails pairwise distinct. *)
Theorem self_service_keep_table_wf (vp : string -> User -> bool) (req : Request) (w : World)
    (me : User) :
  table_wf (db w) -> req_user req = Some me -> In me (db w) ->
  (let l := db (snd (profile_update req w)) in
   table_wf l /\ map pk l = map pk (db w) /\ map email l = map email (db w)) /\
  (let l := db (snd (password_change vp req w)) in
   table_wf l /\ map pk l = map pk (db w) /\ map email l = map email (db w)).
Proof. exact (self_service_cols vp req w me). Qed.

Lemma self_service_keep_table_wf_witness :
  map email (db (snd (profile_update
    (Sample.req "/accounts/profile/edit/" "POST" (Some Sample.alice) []
       [("first_name", "Alicia"); ("email", "admin@staffly.io")] 800) Sample.w0)))
  = map email (db Sample.w0).
Proof.
  refine (proj2 (proj2 (proj1 (self_service_keep_table_wf (fun _ _ => true)
    (Sample.req "/accounts/profile/edit/" "POST" (Some Sample.alice) []
       [("first_name", "Alicia"); ("email", "admin@staffly.io")] 800) Sample.w0 Sample.alice
    _ eq_refl _)))).
  - split; vm_compute; repeat constructor; simpl; intuition discriminate.
  - simpl. right. right. left. reflexivity.
Defined.

(** [UpdateLastLoginMiddleware] writes only the [last_login] column: every
    other column of every row, the messages and the session stay as they
    were (so the table invariant is kept). *)
Theorem last_login_middleware_column_only (req : Request) (w : World) :
  let w' := Middleware.update_last_login req w in
  map (set_last_login 0) (db w') = map (set_last_login 0) (db w) /\
  msgs w' = msgs w /\ session w' = session w /\
  (table_wf (db w) -> table_wf (db w')).
Proof.
  cbv zeta. unfold Middleware.update_last_login.
  destruct (req_user req) as [u|]; [|auto].
  destruct (Middleware.last_login_update (now req) u) as [t|]; [|auto].
  simpl. unfold save_last_login.
  assert (Hm : map (set_last_login 0)
                 (map (fun v => if Z.eqb (pk v) (pk u) then set_last_login t v else v) (db w)) =
               map (set_last_login 0) (db w)).
  { rewrite map_map. apply map_ext. intros v. destruct (Z.eqb (pk v) (pk u)); reflexivity. }
  split; [exact Hm|split; [reflexivity|split; [reflexivity|]]].
  intros [Hp He].
  assert (Hk : forall (B : Type) (f : User -> B), (forall v, f (set_last_login 0 v) = f v) ->
                 map f (map (fun v => if Z.eqb (pk v) (pk u) then set_last_login t v else v) (db w))
                 = map f (db w)).
  { intros B f Hf.
    assert (E : forall l, map f l = map f (map (set_last_login 0) l))
      by (intros l; rewrite map_map; apply map_ext; intros v; symmetry; apply Hf).
    rewrite E, Hm, <- E. reflexivity. }
  split; [rewrite (Hk Z pk) by reflexivity|rewrite (Hk string email) by reflexivity]; assumption.
Qed.

(** ** Email uniqueness, across the code paths that store users *)




